(** * Prepsales notification service: retry pipeline

    A shallow embedding of [src/notification_service.py]: the
    [Notification] model with its dict round trip, the contact validators,
    the back-off policy, and the four operations that touch the persisted
    records and the broker (worker, scheduler tick, manual retry, intake).

    Conventions of the embedding:
    - Python values that occur as notification attributes, JSON members
      and BSON fields are the type [value]: [None], non-negative integers
      of any size, strings and [datetime]s.  Negative or fractional numbers
      and booleans are outside the model (with them [2 ** retry_count] is a
      float).
    - A string is the UTF-8 encoding of a Python [str].  The validators
      look at its characters (code points); what [\w] and [\d] match
      beyond ASCII is read from the character tables of the interpreter,
      which are part of the world.
    - A [datetime] is a number of microseconds.
    - MongoDB is the list of its documents in natural order, RabbitMQ the
      two queues as lists of message bodies.  A write encodes its document
      as BSON: an integer that does not fit 64 bits raises [OverflowError]
      before anything is written, and [update_one] stores a [datetime] cut
      to the millisecond.  [insert_one] keeps the document it is given as
      it is: the [_id] it adds (to the stored document and, the dict being
      the notification's own [__dict__], to the message published next)
      and the cut of [created_at] are left out.  No operation reads
      [_id].
    - What the program cannot decide itself (the clock, the mail and SMS
      providers, whether the broker accepts a connection) and what its
      interpreter supplies (how a [datetime] prints, the character tables)
      is an [Env].
    - Each operation is one step.  The loop body of the scheduler is a step
      of its own ([claim]), so that two ticks can be interleaved.
    - Of the HTTP surface the JSON intake (on a body that is a JSON
      object), the form and the manual retry are embedded; the listing and
      the templates are not.  An exception that leaves a handler is the
      result [Raise].  Failures of MongoDB itself are not modelled. *)

From Stdlib Require Import NArith Ascii String List.
From stdpp Require Import base option list strings gmap fin_maps.

Local Open Scope string_scope.

(** ** Python values and exceptions *)

Inductive value :=
  | VNone
  | VInt (n : N)
  | VStr (s : string)
  | VTime (t : N).

#[global] Instance value_eq_dec : EqDecision value.
Proof. solve_decision. Defined.

(** A [dict] with string keys: [__dict__], a decoded JSON object, a
    MongoDB document, a [$set] argument. *)
Abbreviation dict := (gmap string value).

Inductive exn :=
  | KeyError (key : string)
  | ValueError (msg : string)
  | TypeError (msg : string)
  | JSONDecodeError
  | ProviderError (msg : string)
  | AMQPConnectionError
  | OverflowError (msg : string).

(** [str(e)] *)
Definition str_exn (e : exn) : string :=
  match e with
  | KeyError k => "'" ++ k ++ "'"
  | ValueError m | TypeError m | ProviderError m | OverflowError m => m
  | JSONDecodeError => "Expecting value"
  | AMQPConnectionError => ""
  end.

Inductive Exc (A : Type) :=
  | Ok (a : A)
  | Raise (e : exn).
Arguments Ok {A} a.
Arguments Raise {A} e.

Definition exc_bind {A B} (x : Exc A) (f : A -> Exc B) : Exc B :=
  match x with
  | Ok a => f a
  | Raise e => Raise e
  end.

(** [bool(v)] *)
Definition truthy (v : value) : bool :=
  match v with
  | VNone => false
  | VInt n => negb (n =? 0)%N
  | VStr s => negb (String.eqb s "")
  | VTime _ => true
  end.

(** [v += 1] *)
Definition py_incr (v : value) : Exc value :=
  match v with
  | VInt n => Ok (VInt (n + 1))
  | _ => Raise (TypeError "unsupported operand type(s) for +=")
  end.

(** [a >= b] *)
Definition py_ge (a b : value) : Exc bool :=
  match a, b with
  | VInt x, VInt y => Ok (y <=? x)%N
  | VStr x, VStr y => Ok (bool_decide (String.ltb x y = false))
  | VTime x, VTime y => Ok (y <=? x)%N
  | _, _ => Raise (TypeError "'>=' not supported between instances")
  end.

(** [d[k]] and [d.get(k, dflt)] *)
Definition getitem (d : dict) (k : string) : Exc value :=
  match d !! k with
  | Some v => Ok v
  | None => Raise (KeyError k)
  end.

Definition get (d : dict) (k : string) (dflt : value) : value :=
  default dflt (d !! k).

(** ** The Notification model *)

Definition MAX_RETRIES : N := 5.

Record Notification := mkNotification {
  id : value;
  user_id : value;
  notification_type : value;
  message : value;
  email : value;
  phone : value;
  created_at : value;
  status : value;
  last_error : value;
  retry_count : value;
  max_retries : value;
  next_retry_time : value
}.

(** [Notification.__init__]; [fresh] is the [uuid4()] drawn and [now] the
    clock read. *)
Definition Notification_init (fresh : string) (now : N)
    (uid ty msg em ph : value) : Notification :=
  {| id := VStr fresh; user_id := uid; notification_type := ty;
     message := msg; email := em; phone := ph;
     created_at := VTime now; status := VStr "pending";
     last_error := VNone; retry_count := VInt 0;
     max_retries := VInt MAX_RETRIES; next_retry_time := VNone |}.

Definition set_status (v : value) (n : Notification) : Notification :=
  mkNotification (id n) (user_id n) (notification_type n) (message n)
    (email n) (phone n) (created_at n) v (last_error n) (retry_count n)
    (max_retries n) (next_retry_time n).

Definition set_last_error (v : value) (n : Notification) : Notification :=
  mkNotification (id n) (user_id n) (notification_type n) (message n)
    (email n) (phone n) (created_at n) (status n) v (retry_count n)
    (max_retries n) (next_retry_time n).

Definition set_retry_count (v : value) (n : Notification) : Notification :=
  mkNotification (id n) (user_id n) (notification_type n) (message n)
    (email n) (phone n) (created_at n) (status n) (last_error n) v
    (max_retries n) (next_retry_time n).

Definition set_next_retry_time (v : value) (n : Notification) : Notification :=
  mkNotification (id n) (user_id n) (notification_type n) (message n)
    (email n) (phone n) (created_at n) (status n) (last_error n)
    (retry_count n) (max_retries n) v.

(** [to_dict] returns [self.__dict__]: the twelve attributes. *)
Definition to_dict (n : Notification) : dict :=
  <["id" := id n]> (
  <["user_id" := user_id n]> (
  <["notification_type" := notification_type n]> (
  <["message" := message n]> (
  <["email" := email n]> (
  <["phone" := phone n]> (
  <["created_at" := created_at n]> (
  <["status" := status n]> (
  <["last_error" := last_error n]> (
  <["retry_count" := retry_count n]> (
  <["max_retries" := max_retries n]> (
  <["next_retry_time" := next_retry_time n]> ∅))))))))))).

(** [from_dict]: the constructor call needs three keys, then [id],
    [created_at] and [status] are indexed and the rest read with [get].
    The id and creation time the constructor draws are overwritten at
    once, so they are not threaded. *)
Definition from_dict (data : dict) : Exc Notification :=
  exc_bind (getitem data "user_id") (fun uid =>
  exc_bind (getitem data "notification_type") (fun ty =>
  exc_bind (getitem data "message") (fun msg =>
  let em := get data "email" (VStr "") in
  let ph := get data "phone" (VStr "") in
  exc_bind (getitem data "id") (fun i =>
  exc_bind (getitem data "created_at") (fun c =>
  exc_bind (getitem data "status") (fun st =>
  Ok {| id := i; user_id := uid; notification_type := ty; message := msg;
        email := em; phone := ph; created_at := c; status := st;
        last_error := get data "last_error" VNone;
        retry_count := get data "retry_count" (VInt 0);
        max_retries := get data "max_retries" (VInt MAX_RETRIES);
        next_retry_time := get data "next_retry_time" VNone |})))))).

(** ** Validators

    The two patterns are kept as data and run by a derivative matcher on
    the characters of the subject. *)

(** The character tables of the interpreter beyond ASCII: the code points
    that [str.isdecimal] and [str.isalnum] accept.  [\d] and [\w]
    consult them. *)
Record Unicode := mkUnicode {
  isdecimal : N -> bool;
  isalnum : N -> bool
}.

Inductive regex :=
  | Nothing
  | Eps
  | Class (p : N -> bool)
  | Cat (r1 r2 : regex)
  | Alt (r1 r2 : regex)
  | Star (r : regex).

Fixpoint nullable (r : regex) : bool :=
  match r with
  | Nothing => false
  | Eps => true
  | Class _ => false
  | Cat r1 r2 => nullable r1 && nullable r2
  | Alt r1 r2 => nullable r1 || nullable r2
  | Star _ => true
  end.

Fixpoint deriv (c : N) (r : regex) : regex :=
  match r with
  | Nothing | Eps => Nothing
  | Class p => if p c then Eps else Nothing
  | Cat r1 r2 =>
      if nullable r1 then Alt (Cat (deriv c r1) r2) (deriv c r2)
      else Cat (deriv c r1) r2
  | Alt r1 r2 => Alt (deriv c r1) (deriv c r2)
  | Star r1 => Cat (deriv c r1) (Star r1)
  end.

Fixpoint fullmatch (r : regex) (s : list N) : bool :=
  match s with
  | [] => nullable r
  | c :: s' => fullmatch (deriv c r) s'
  end.

Definition between (lo hi c : N) : bool := ((lo <=? c) && (c <=? hi))%N.

(** *** The characters of a string

    A string is the UTF-8 encoding of a Python [str], and its characters
    are the code points it encodes.  A byte that starts no well-formed
    sequence (there is none in the encoding of a [str]) stands for a
    character of its own beyond the range of Unicode, which no class
    accepts. *)

Definition continuation (b : N) : bool := between 128 191 b.

Definition two_bytes (b b1 : N) : option N :=
  if between 194 223 b && continuation b1
  then Some ((b - 192) * 64 + (b1 - 128))%N
  else None.

Definition three_bytes (b b1 b2 : N) : option N :=
  if between 224 239 b && continuation b1 && continuation b2 then
    let c := ((b - 224) * 4096 + (b1 - 128) * 64 + (b2 - 128))%N in
    if (2048 <=? c)%N && negb (between 55296 57343 c) then Some c else None
  else None.

Definition four_bytes (b b1 b2 b3 : N) : option N :=
  if between 240 244 b && continuation b1 && continuation b2
     && continuation b3 then
    let c := ((b - 240) * 262144 + (b1 - 128) * 4096 + (b2 - 128) * 64
              + (b3 - 128))%N in
    if between 65536 1114111 c then Some c else None
  else None.

Definition undecodable (b : N) : N := (1114112 + b)%N.

Fixpoint code_points (s : string) : list N :=
  match s with
  | EmptyString => []
  | String a s1 =>
      let b := N_of_ascii a in
      if (b <? 128)%N then b :: code_points s1
      else
        match s1 with
        | String a1 s2 =>
            match two_bytes b (N_of_ascii a1) with
            | Some c => c :: code_points s2
            | None =>
                match s2 with
                | String a2 s3 =>
                    match three_bytes b (N_of_ascii a1) (N_of_ascii a2) with
                    | Some c => c :: code_points s3
                    | None =>
                        match s3 with
                        | String a3 s4 =>
                            match four_bytes b (N_of_ascii a1) (N_of_ascii a2)
                                    (N_of_ascii a3) with
                            | Some c => c :: code_points s4
                            | None => undecodable b :: code_points s1
                            end
                        | EmptyString => undecodable b :: code_points s1
                        end
                    end
                | EmptyString => undecodable b :: code_points s1
                end
            end
        | EmptyString => [undecodable b]
        end
  end.

(** [ord(a)] *)
Definition ord (a : ascii) : N := N_of_ascii a.

(** *** The character classes *)

Definition chr (a : ascii) : regex := Class (N.eqb (ord a)).
(** [\d]: an ASCII digit or, beyond ASCII, a decimal digit of the
    tables. *)
Definition is_digit (u : Unicode) (c : N) : bool :=
  if (c <? 128)%N then between 48 57 c
  else (c <=? 1114111)%N && isdecimal u c.
(** [\w]: an ASCII letter or digit, the underscore or, beyond ASCII, an
    alphanumeric character of the tables. *)
Definition is_word (u : Unicode) (c : N) : bool :=
  if (c <? 128)%N then
    between 97 122 c || between 65 90 c || between 48 57 c
    || (c =? ord "_")%N
  else (c <=? 1114111)%N && isalnum u c.
(** [[\w\.-]] *)
Definition is_local (u : Unicode) (c : N) : bool :=
  is_word u c || (c =? ord ".")%N || (c =? ord "-")%N.

Definition plus (r : regex) : regex := Cat r (Star r).
Definition opt (r : regex) : regex := Alt Eps r.

(** [r{k}] and [r{k,k+m}] *)
Fixpoint times (k : nat) (r : regex) : regex :=
  match k with
  | O => Eps
  | S k' => Cat r (times k' r)
  end.

Fixpoint upto (m : nat) (r : regex) : regex :=
  match m with
  | O => Eps
  | S m' => opt (Cat r (upto m' r))
  end.

(** Without [re.MULTILINE] a final [$] matches at the end of the string and
    also just before a newline that ends it. *)
Definition dollar : regex := opt (chr "010").

(** [re.match(pattern, s)] for a pattern that ends in [$]: the match starts
    at the first character and must reach the end. *)
Definition re_match (pattern : regex) (s : string) : bool :=
  fullmatch (Cat pattern dollar) (code_points s).

(** [r'^[\w\.-]+@[\w\.-]+\.\w+$'] *)
Definition email_pattern (u : Unicode) : regex :=
  Cat (plus (Class (is_local u)))
    (Cat (chr "@")
      (Cat (plus (Class (is_local u)))
        (Cat (chr ".") (plus (Class (is_word u)))))).

(** [r'^\+\d{10,15}$'] *)
Definition phone_pattern (u : Unicode) : regex :=
  Cat (chr "+")
    (Cat (times 10 (Class (is_digit u))) (upto 5 (Class (is_digit u)))).

(** [type(v).__name__], with the module where [str(type)] shows one *)
Definition type_name (v : value) : string :=
  match v with
  | VNone => "NoneType"
  | VInt _ => "int"
  | VStr _ => "str"
  | VTime _ => "datetime.datetime"
  end.

(** [re.match(p, x) if x else False], read as a condition.  A truthy
    argument that is not a string makes [re.match] raise, with the text
    of Python 3.11. *)
Definition validate_with (pattern : regex) (x : value) : Exc bool :=
  if truthy x then
    match x with
    | VStr s => Ok (re_match pattern s)
    | _ => Raise (TypeError ("expected string or bytes-like object, got '"
                             ++ type_name x ++ "'"))
    end
  else Ok false.

(** The validators, with the tables of the interpreter passed in. *)
Definition validate_email (u : Unicode) (email : value) : Exc bool :=
  validate_with (email_pattern u) email.

Definition validate_phone (u : Unicode) (phone : value) : Exc bool :=
  validate_with (phone_pattern u) phone.

(** ** Back-off *)

(** [min(30 * (2 ** retry_count), 3600)], in seconds *)
Definition retry_delay (retry_count : N) : N :=
  N.min (30 * 2 ^ retry_count) 3600.

(** [timedelta(seconds=k)] in microseconds *)
Definition timedelta_seconds (k : N) : N := (k * 1000000)%N.

(** [calculate_next_retry_time], with the clock read passed in *)
Definition calculate_next_retry_time (now : N) (retry_count : N) : N :=
  (now + timedelta_seconds (retry_delay retry_count))%N.

(** ** The world outside the program *)

Inductive call :=
  | MailSend (recipient body : value)
  | SmsCreate (to body : value).

(** What one run of an operation finds outside: the clock, the answer of
    the providers ([None]: accepted, [Some e]: an exception whose text is
    [e]), whether the broker accepts a connection, how [str] prints a
    [datetime], and the character tables of the interpreter. *)
Record Env := mkEnv {
  utcnow : N;
  mail_send : value -> value -> option string;
  sms_create : value -> value -> option string;
  broker_up : bool;
  str_datetime : N -> string;
  unicode : Unicode
}.

(** A message body on a queue.  [Garbage] stands for bytes that are not
    the JSON text of an object, [JsonDoc d] for the JSON text of the object
    with the members [d]. *)
Inductive body :=
  | Garbage (raw : string)
  | JsonDoc (d : dict).

Definition json_default (env : Env) (v : value) : value :=
  match v with
  | VTime t => VStr (str_datetime env t)
  | _ => v
  end.

(** [json.dumps(d, default=str)] *)
Definition json_dumps (env : Env) (d : dict) : body :=
  JsonDoc (json_default env <$> d).

(** JSON has no [datetime]: members that hold one are the text of no
    object. *)
Definition json_value (v : value) : bool :=
  match v with
  | VTime _ => false
  | _ => true
  end.

Definition json_text (d : dict) : bool :=
  forallb (fun kv => json_value (snd kv)) (map_to_list d).

Definition json_loads (b : body) : Exc dict :=
  match b with
  | JsonDoc d => if json_text d then Ok d else Raise JSONDecodeError
  | Garbage _ => Raise JSONDecodeError
  end.

(** The collection, the work queue, the dead-letter queue, and the calls
    made to the mail and SMS providers so far. *)
Record State := mkState {
  store : list dict;
  queue : list body;
  dlq : list body;
  outbox : list call
}.

Definition empty_state : State := mkState [] [] [] [].

(** Effectful code: state passing with exceptions; the state reached when
    an exception is raised is kept. *)
Definition M (A : Type) : Type := State -> State * Exc A.

Definition ret {A} (a : A) : M A := fun s => (s, Ok a).
Definition raise {A} (e : exn) : M A := fun s => (s, Raise e).
Definition bind {A B} (m : M A) (f : A -> M B) : M B :=
  fun s => match m s with
           | (s', Ok a) => f a s'
           | (s', Raise e) => (s', Raise e)
           end.
Definition lift {A} (x : Exc A) : M A := fun s => (s, x).
(** [try: m  except Exception as e: h e] *)
Definition try_except {A} (m : M A) (h : exn -> M A) : M A :=
  fun s => match m s with
           | (s', Ok a) => (s', Ok a)
           | (s', Raise e) => h e s'
           end.

Notation "'let*' x ':=' m 'in' k" := (bind m (fun x => k))
  (at level 10, x name, m at level 100, k at level 200).
Notation "m ';;;' k" := (bind m (fun _ => k))
  (at level 100, right associativity).

(** ** MongoDB *)

(** The filter [{key: v}]: the field equals [v]; a filter on [None] also
    matches a document without the field. *)
Definition field_is (key : string) (v : value) (doc : dict) : bool :=
  bool_decide (get doc key VNone = v).

Definition find_one (i : value) (docs : list dict) : option dict :=
  List.find (field_is "id" i) docs.

(** [{"$set": upd}] on the first document that matches [{"id": i}];
    without a match nothing changes. *)
Fixpoint set_first (i : value) (upd : dict) (docs : list dict) : list dict :=
  match docs with
  | [] => []
  | d :: rest =>
      if field_is "id" i d then (upd ∪ d) :: rest
      else d :: set_first i upd rest
  end.

(** BSON holds integers of up to 64 bits. *)
Definition storable (v : value) : bool :=
  match v with
  | VInt n => (n <? 2 ^ 63)%N
  | _ => true
  end.

Definition encodable (d : dict) : bool :=
  forallb (fun kv => storable (snd kv)) (map_to_list d).

(** A BSON date is a number of milliseconds. *)
Definition to_millis (t : N) : N := (t / 1000 * 1000)%N.

(** A value as the collection holds it. *)
Definition bson (v : value) : value :=
  match v with
  | VTime t => VTime (to_millis t)
  | _ => v
  end.

(** The driver encodes the filter and the update before it sends them.  A
    value that cannot be encoded is in no document, so the filter is
    looked at when it matches none. *)
Definition update_one (i : value) (upd : dict) : M unit :=
  fun s =>
    if encodable upd
       && (storable i || bool_decide (is_Some (find_one i (store s))))
    then (mkState (set_first i (bson <$> upd) (store s)) (queue s) (dlq s)
            (outbox s), Ok tt)
    else (s, Raise (OverflowError "MongoDB can only handle up to 8-byte ints")).

Definition insert_one (doc : dict) : M unit :=
  fun s =>
    if encodable doc
    then (mkState (store s ++ [doc]) (queue s) (dlq s) (outbox s), Ok tt)
    else (s, Raise (OverflowError "MongoDB can only handle up to 8-byte ints")).

Arguments encodable : simpl never.
Arguments update_one : simpl never.
Arguments insert_one : simpl never.

(** The scheduler's filter: status [retry_scheduled] and a [datetime] in
    [next_retry_time] that is not after [now]. *)
Definition due (now : N) (doc : dict) : bool :=
  field_is "status" (VStr "retry_scheduled") doc &&
  match get doc "next_retry_time" VNone with
  | VTime t => (t <=? now)%N
  | _ => false
  end.

(** ** RabbitMQ *)

Inductive queue_name := QUEUE_NAME | DLQ_NAME.

(** Open a connection and [basic_publish] to the named queue. *)
Definition basic_publish (env : Env) (q : queue_name) (b : body) : M unit :=
  fun s =>
    if broker_up env then
      match q with
      | QUEUE_NAME =>
          (mkState (store s) (queue s ++ [b]) (dlq s) (outbox s), Ok tt)
      | DLQ_NAME =>
          (mkState (store s) (queue s) (dlq s ++ [b]) (outbox s), Ok tt)
      end
    else (s, Raise AMQPConnectionError).

Definition publish_notification (env : Env) (n : Notification) : M bool :=
  try_except
    (basic_publish env QUEUE_NAME (json_dumps env (to_dict n)) ;;; ret true)
    (fun _ => ret false).

(** ** Delivery *)

Definition provider (c : call) (answer : option string) : M unit :=
  fun s =>
    (mkState (store s) (queue s) (dlq s) (outbox s ++ [c]),
     match answer with
     | None => Ok tt
     | Some e => Raise (ProviderError e)
     end).

(** The body of the [try] in [send_notification], up to the provider
    call. *)
Definition dispatch (env : Env) (n : Notification) : M unit :=
  if decide (notification_type n = VStr "email") then
    let* ok := lift (validate_email (unicode env) (email n)) in
    if negb ok then raise (ValueError "Invalid email")
    else provider (MailSend (email n) (message n))
                  (mail_send env (email n) (message n))
  else if decide (notification_type n = VStr "sms") then
    let* ok := lift (validate_phone (unicode env) (phone n)) in
    if negb ok then raise (ValueError "Invalid phone")
    else provider (SmsCreate (phone n) (message n))
                  (sms_create env (phone n) (message n))
  else ret tt.

(** [send_notification] mutates its argument: the notification it leaves
    behind is returned with the flag. *)
Definition send_notification (env : Env) (n : Notification)
    : M (Notification * bool) :=
  try_except
    (dispatch env n ;;; ret (set_status (VStr "sent") n, true))
    (fun e =>
       ret (set_last_error (VStr (str_exn e)) (set_status (VStr "failed") n),
            false)).

(** [calculate_next_retry_time] applied to an attribute *)
Definition next_retry_value (env : Env) (retry_count : value) : Exc value :=
  match retry_count with
  | VInt k => Ok (VTime (calculate_next_retry_time (utcnow env) k))
  | _ => Raise (TypeError "unsupported operand type(s) for ** or pow()")
  end.

Definition sent_update : dict :=
  <["status" := VStr "sent"]> (<["last_error" := VNone]> ∅).

Definition process_notification (env : Env) (notification_data : body)
    : M bool :=
  try_except
    (let* data := lift (json_loads notification_data) in
     let* n := lift (from_dict data) in
     let* r := send_notification env n in
     let '(n, sent) := r in
     if sent then
       update_one (id n) sent_update ;;; ret true
     else
       let* rc := lift (py_incr (retry_count n)) in
       let n := set_retry_count rc n in
       let* exhausted := lift (py_ge (retry_count n) (max_retries n)) in
       if exhausted then
         let n := set_status (VStr "failed_permanently") n in
         update_one (id n) (to_dict n) ;;;
         basic_publish env DLQ_NAME (json_dumps env (to_dict n)) ;;;
         ret true
       else
         let* t := lift (next_retry_value env (retry_count n)) in
         let n := set_next_retry_time t n in
         update_one (id n) (to_dict n) ;;;
         ret true)
    (fun _ => ret false).

(** The consumer callback on the message at the head of the work queue.
    Acknowledged or rejected with [requeue=False], the message leaves the
    queue. *)
Inductive settled := Acked | Nacked.

Definition callback (env : Env) : M (option settled) :=
  fun s =>
    match queue s with
    | [] => (s, Ok None)
    | b :: rest =>
        let s0 := mkState (store s) rest (dlq s) (outbox s) in
        match process_notification env b s0 with
        | (s', Ok true) => (s', Ok (Some Acked))
        | (s', _) => (s', Ok (Some Nacked))
        end
    end.

(** ** Scheduler *)

Definition retrying_update : dict := <["status" := VStr "retrying"]> ∅.

(** The body of the loop in [process_scheduled_retries], for one document
    the cursor yields. *)
Definition claim (env : Env) (doc : dict) : M unit :=
  let* n := lift (from_dict doc) in
  update_one (id n) retrying_update ;;;
  publish_notification env n ;;;
  ret tt.

Fixpoint for_each {A} (f : A -> M unit) (l : list A) : M unit :=
  match l with
  | [] => ret tt
  | a :: rest => f a ;;; for_each f rest
  end.

(** The cursor is read as the list of documents that match when [find]
    runs. *)
Definition process_scheduled_retries (env : Env) : M unit :=
  fun s => for_each (claim env) (List.filter (due (utcnow env)) (store s)) s.

(** ** HTTP handlers *)

Inductive response :=
  | Created (id : value)
  | Queued
  | BadRequest (error : string)
  | NotFound
  | ServerError (error : string).

Definition known_type (v : value) : bool :=
  bool_decide (v = VStr "email") || bool_decide (v = VStr "sms")
  || bool_decide (v = VStr "in_app").

Definition has_key (d : dict) (k : string) : bool := bool_decide (is_Some (d !! k)).

(** [POST /notifications]; [fresh] is the [uuid4()] drawn. *)
Definition send_notification_api (env : Env) (fresh : string) (data : dict)
    : M response :=
  if negb (has_key data "user_id" && has_key data "notification_type"
           && has_key data "message")
  then ret (BadRequest "Missing required fields")
  else if negb (known_type (get data "notification_type" VNone))
  then ret (BadRequest "Invalid notification type")
  else
    let n := Notification_init fresh (utcnow env)
               (get data "user_id" VNone) (get data "notification_type" VNone)
               (get data "message" VNone) (get data "email" (VStr ""))
               (get data "phone" (VStr "")) in
    insert_one (to_dict n) ;;;
    let* published := publish_notification env n in
    if published then ret (Created (id n))
    else ret (ServerError "Queueing failed").

(** [POST /notifications/<notification_id>/retry] *)
Definition retry_notification (env : Env) (notification_id : string)
    : M response :=
  fun s =>
    match find_one (VStr notification_id) (store s) with
    | None => (s, Ok NotFound)
    | Some doc =>
        (let* n := lift (from_dict doc) in
         let n := set_retry_count (VInt 0) n in
         let n := set_status (VStr "retrying") n in
         let n := set_next_retry_time VNone n in
         update_one (VStr notification_id) (to_dict n) ;;;
         let* published := publish_notification env n in
         if published then ret Queued
         else ret (ServerError "Retry failed")) s
    end.

(** ** Reading the persisted record *)

(** The field [key] of the first persisted document whose id is [i]. *)
Definition persisted (i : value) (key : string) (s : State) : option value :=
  match find_one i (store s) with
  | Some doc => doc !! key
  | None => None
  end.

Definition deserialize (b : body) : Exc Notification :=
  exc_bind (json_loads b) from_dict.



(** What manual retry writes over the notification it read. *)
Definition reset_for_retry (n : Notification) : Notification :=
  set_next_retry_time VNone
    (set_status (VStr "retrying") (set_retry_count (VInt 0) n)).

(** ** Runs of the service

    The four operations that write to the collection, each with the
    world it meets. *)

Inductive op :=
  | Intake (env : Env) (fresh : string) (data : dict)
  | Deliver (env : Env)
  | Schedule (env : Env)
  | ManualRetry (env : Env) (notification_id : string).

Definition run_op (o : op) (s : State) : State :=
  match o with
  | Intake env fresh data => fst (send_notification_api env fresh data s)
  | Deliver env => fst (callback env s)
  | Schedule env => fst (process_scheduled_retries env s)
  | ManualRetry env i => fst (retry_notification env i s)
  end.

Definition run (ops : list op) (s : State) : State :=
  fold_left (fun s o => run_op o s) ops s.

Definition reachable (s : State) : Prop :=
  exists ops, s = run ops empty_state.

(** The keys [from_dict] indexes. *)
Definition complete (doc : dict) : Prop :=
  Forall (fun k => is_Some (doc !! k))
    ["user_id"; "notification_type"; "message"; "id"; "created_at"; "status"].

(** Worker and scheduler turns only. *)
Definition background (turn : bool * Env) : op :=
  if fst turn then Deliver (snd turn) else Schedule (snd turn).

(** ** Concrete worlds and requests *)

Definition render (t : N) : string := "1970-01-01 00:00:00".
Definition accept (to body : value) : option string := None.
Definition refuse (to body : value) : option string :=
  Some "connection refused".

(** The ranges of code points beyond ASCII that [str.isdecimal] accepts
    (Unicode 14.0, the tables of Python 3.11). *)
Definition decimal_ranges : list (N * N) :=
  [(1632, 1641); (1776, 1785); (1984, 1993); (2406, 2415); (2534, 2543);
   (2662, 2671); (2790, 2799); (2918, 2927); (3046, 3055); (3174, 3183);
   (3302, 3311); (3430, 3439); (3558, 3567); (3664, 3673); (3792, 3801);
   (3872, 3881); (4160, 4169); (4240, 4249); (6112, 6121); (6160, 6169);
   (6470, 6479); (6608, 6617); (6784, 6793); (6800, 6809); (6992, 7001);
   (7088, 7097); (7232, 7241); (7248, 7257); (42528, 42537); (43216, 43225);
   (43264, 43273); (43472, 43481); (43504, 43513); (43600, 43609);
   (44016, 44025); (65296, 65305); (66720, 66729); (68912, 68921);
   (69734, 69743); (69872, 69881); (69942, 69951); (70096, 70105);
   (70384, 70393); (70736, 70745); (70864, 70873); (71248, 71257);
   (71360, 71369); (71472, 71481); (71904, 71913); (72016, 72025);
   (72784, 72793); (73040, 73049); (73120, 73129); (92768, 92777);
   (92864, 92873); (93008, 93017); (120782, 120831); (123200, 123209);
   (123632, 123641); (125264, 125273); (130032, 130041)]%N.

(** The ranges of code points beyond ASCII that [str.isalnum] accepts
    (Unicode 14.0). *)
Definition alnum_ranges : list (N * N) :=
  [(170, 170); (178, 179); (181, 181); (185, 186); (188, 190); (192, 214);
   (216, 246); (248, 705); (710, 721); (736, 740); (748, 748); (750, 750);
   (880, 884); (886, 887); (890, 893); (895, 895); (902, 902); (904, 906);
   (908, 908); (910, 929); (931, 1013); (1015, 1153); (1162, 1327);
   (1329, 1366); (1369, 1369); (1376, 1416); (1488, 1514); (1519, 1522);
   (1568, 1610); (1632, 1641); (1646, 1647); (1649, 1747); (1749, 1749);
   (1765, 1766); (1774, 1788); (1791, 1791); (1808, 1808); (1810, 1839);
   (1869, 1957); (1969, 1969); (1984, 2026); (2036, 2037); (2042, 2042);
   (2048, 2069); (2074, 2074); (2084, 2084); (2088, 2088); (2112, 2136);
   (2144, 2154); (2160, 2183); (2185, 2190); (2208, 2249); (2308, 2361);
   (2365, 2365); (2384, 2384); (2392, 2401); (2406, 2415); (2417, 2432);
   (2437, 2444); (2447, 2448); (2451, 2472); (2474, 2480); (2482, 2482);
   (2486, 2489); (2493, 2493); (2510, 2510); (2524, 2525); (2527, 2529);
   (2534, 2545); (2548, 2553); (2556, 2556); (2565, 2570); (2575, 2576);
   (2579, 2600); (2602, 2608); (2610, 2611); (2613, 2614); (2616, 2617);
   (2649, 2652); (2654, 2654); (2662, 2671); (2674, 2676); (2693, 2701);
   (2703, 2705); (2707, 2728); (2730, 2736); (2738, 2739); (2741, 2745);
   (2749, 2749); (2768, 2768); (2784, 2785); (2790, 2799); (2809, 2809);
   (2821, 2828); (2831, 2832); (2835, 2856); (2858, 2864); (2866, 2867);
   (2869, 2873); (2877, 2877); (2908, 2909); (2911, 2913); (2918, 2927);
   (2929, 2935); (2947, 2947); (2949, 2954); (2958, 2960); (2962, 2965);
   (2969, 2970); (2972, 2972); (2974, 2975); (2979, 2980); (2984, 2986);
   (2990, 3001); (3024, 3024); (3046, 3058); (3077, 3084); (3086, 3088);
   (3090, 3112); (3114, 3129); (3133, 3133); (3160, 3162); (3165, 3165);
   (3168, 3169); (3174, 3183); (3192, 3198); (3200, 3200); (3205, 3212);
   (3214, 3216); (3218, 3240); (3242, 3251); (3253, 3257); (3261, 3261);
   (3293, 3294); (3296, 3297); (3302, 3311); (3313, 3314); (3332, 3340);
   (3342, 3344); (3346, 3386); (3389, 3389); (3406, 3406); (3412, 3414);
   (3416, 3425); (3430, 3448); (3450, 3455); (3461, 3478); (3482, 3505);
   (3507, 3515); (3517, 3517); (3520, 3526); (3558, 3567); (3585, 3632);
   (3634, 3635); (3648, 3654); (3664, 3673); (3713, 3714); (3716, 3716);
   (3718, 3722); (3724, 3747); (3749, 3749); (3751, 3760); (3762, 3763);
   (3773, 3773); (3776, 3780); (3782, 3782); (3792, 3801); (3804, 3807);
   (3840, 3840); (3872, 3891); (3904, 3911); (3913, 3948); (3976, 3980);
   (4096, 4138); (4159, 4169); (4176, 4181); (4186, 4189); (4193, 4193);
   (4197, 4198); (4206, 4208); (4213, 4225); (4238, 4238); (4240, 4249);
   (4256, 4293); (4295, 4295); (4301, 4301); (4304, 4346); (4348, 4680);
   (4682, 4685); (4688, 4694); (4696, 4696); (4698, 4701); (4704, 4744);
   (4746, 4749); (4752, 4784); (4786, 4789); (4792, 4798); (4800, 4800);
   (4802, 4805); (4808, 4822); (4824, 4880); (4882, 4885); (4888, 4954);
   (4969, 4988); (4992, 5007); (5024, 5109); (5112, 5117); (5121, 5740);
   (5743, 5759); (5761, 5786); (5792, 5866); (5870, 5880); (5888, 5905);
   (5919, 5937); (5952, 5969); (5984, 5996); (5998, 6000); (6016, 6067);
   (6103, 6103); (6108, 6108); (6112, 6121); (6128, 6137); (6160, 6169);
   (6176, 6264); (6272, 6276); (6279, 6312); (6314, 6314); (6320, 6389);
   (6400, 6430); (6470, 6509); (6512, 6516); (6528, 6571); (6576, 6601);
   (6608, 6618); (6656, 6678); (6688, 6740); (6784, 6793); (6800, 6809);
   (6823, 6823); (6917, 6963); (6981, 6988); (6992, 7001); (7043, 7072);
   (7086, 7141); (7168, 7203); (7232, 7241); (7245, 7293); (7296, 7304);
   (7312, 7354); (7357, 7359); (7401, 7404); (7406, 7411); (7413, 7414);
   (7418, 7418); (7424, 7615); (7680, 7957); (7960, 7965); (7968, 8005);
   (8008, 8013); (8016, 8023); (8025, 8025); (8027, 8027); (8029, 8029);
   (8031, 8061); (8064, 8116); (8118, 8124); (8126, 8126); (8130, 8132);
   (8134, 8140); (8144, 8147); (8150, 8155); (8160, 8172); (8178, 8180);
   (8182, 8188); (8304, 8305); (8308, 8313); (8319, 8329); (8336, 8348);
   (8450, 8450); (8455, 8455); (8458, 8467); (8469, 8469); (8473, 8477);
   (8484, 8484); (8486, 8486); (8488, 8488); (8490, 8493); (8495, 8505);
   (8508, 8511); (8517, 8521); (8526, 8526); (8528, 8585); (9312, 9371);
   (9450, 9471); (10102, 10131); (11264, 11492); (11499, 11502);
   (11506, 11507); (11517, 11517); (11520, 11557); (11559, 11559);
   (11565, 11565); (11568, 11623); (11631, 11631); (11648, 11670);
   (11680, 11686); (11688, 11694); (11696, 11702); (11704, 11710);
   (11712, 11718); (11720, 11726); (11728, 11734); (11736, 11742);
   (11823, 11823); (12293, 12295); (12321, 12329); (12337, 12341);
   (12344, 12348); (12353, 12438); (12445, 12447); (12449, 12538);
   (12540, 12543); (12549, 12591); (12593, 12686); (12690, 12693);
   (12704, 12735); (12784, 12799); (12832, 12841); (12872, 12879);
   (12881, 12895); (12928, 12937); (12977, 12991); (13312, 19903);
   (19968, 42124); (42192, 42237); (42240, 42508); (42512, 42539);
   (42560, 42606); (42623, 42653); (42656, 42735); (42775, 42783);
   (42786, 42888); (42891, 42954); (42960, 42961); (42963, 42963);
   (42965, 42969); (42994, 43009); (43011, 43013); (43015, 43018);
   (43020, 43042); (43056, 43061); (43072, 43123); (43138, 43187);
   (43216, 43225); (43250, 43255); (43259, 43259); (43261, 43262);
   (43264, 43301); (43312, 43334); (43360, 43388); (43396, 43442);
   (43471, 43481); (43488, 43492); (43494, 43518); (43520, 43560);
   (43584, 43586); (43588, 43595); (43600, 43609); (43616, 43638);
   (43642, 43642); (43646, 43695); (43697, 43697); (43701, 43702);
   (43705, 43709); (43712, 43712); (43714, 43714); (43739, 43741);
   (43744, 43754); (43762, 43764); (43777, 43782); (43785, 43790);
   (43793, 43798); (43808, 43814); (43816, 43822); (43824, 43866);
   (43868, 43881); (43888, 44002); (44016, 44025); (44032, 55203);
   (55216, 55238); (55243, 55291); (63744, 64109); (64112, 64217);
   (64256, 64262); (64275, 64279); (64285, 64285); (64287, 64296);
   (64298, 64310); (64312, 64316); (64318, 64318); (64320, 64321);
   (64323, 64324); (64326, 64433); (64467, 64829); (64848, 64911);
   (64914, 64967); (65008, 65019); (65136, 65140); (65142, 65276);
   (65296, 65305); (65313, 65338); (65345, 65370); (65382, 65470);
   (65474, 65479); (65482, 65487); (65490, 65495); (65498, 65500);
   (65536, 65547); (65549, 65574); (65576, 65594); (65596, 65597);
   (65599, 65613); (65616, 65629); (65664, 65786); (65799, 65843);
   (65856, 65912); (65930, 65931); (66176, 66204); (66208, 66256);
   (66273, 66299); (66304, 66339); (66349, 66378); (66384, 66421);
   (66432, 66461); (66464, 66499); (66504, 66511); (66513, 66517);
   (66560, 66717); (66720, 66729); (66736, 66771); (66776, 66811);
   (66816, 66855); (66864, 66915); (66928, 66938); (66940, 66954);
   (66956, 66962); (66964, 66965); (66967, 66977); (66979, 66993);
   (66995, 67001); (67003, 67004); (67072, 67382); (67392, 67413);
   (67424, 67431); (67456, 67461); (67463, 67504); (67506, 67514);
   (67584, 67589); (67592, 67592); (67594, 67637); (67639, 67640);
   (67644, 67644); (67647, 67669); (67672, 67702); (67705, 67742);
   (67751, 67759); (67808, 67826); (67828, 67829); (67835, 67867);
   (67872, 67897); (67968, 68023); (68028, 68047); (68050, 68096);
   (68112, 68115); (68117, 68119); (68121, 68149); (68160, 68168);
   (68192, 68222); (68224, 68255); (68288, 68295); (68297, 68324);
   (68331, 68335); (68352, 68405); (68416, 68437); (68440, 68466);
   (68472, 68497); (68521, 68527); (68608, 68680); (68736, 68786);
   (68800, 68850); (68858, 68899); (68912, 68921); (69216, 69246);
   (69248, 69289); (69296, 69297); (69376, 69415); (69424, 69445);
   (69457, 69460); (69488, 69505); (69552, 69579); (69600, 69622);
   (69635, 69687); (69714, 69743); (69745, 69746); (69749, 69749);
   (69763, 69807); (69840, 69864); (69872, 69881); (69891, 69926);
   (69942, 69951); (69956, 69956); (69959, 69959); (69968, 70002);
   (70006, 70006); (70019, 70066); (70081, 70084); (70096, 70106);
   (70108, 70108); (70113, 70132); (70144, 70161); (70163, 70187);
   (70272, 70278); (70280, 70280); (70282, 70285); (70287, 70301);
   (70303, 70312); (70320, 70366); (70384, 70393); (70405, 70412);
   (70415, 70416); (70419, 70440); (70442, 70448); (70450, 70451);
   (70453, 70457); (70461, 70461); (70480, 70480); (70493, 70497);
   (70656, 70708); (70727, 70730); (70736, 70745); (70751, 70753);
   (70784, 70831); (70852, 70853); (70855, 70855); (70864, 70873);
   (71040, 71086); (71128, 71131); (71168, 71215); (71236, 71236);
   (71248, 71257); (71296, 71338); (71352, 71352); (71360, 71369);
   (71424, 71450); (71472, 71483); (71488, 71494); (71680, 71723);
   (71840, 71922); (71935, 71942); (71945, 71945); (71948, 71955);
   (71957, 71958); (71960, 71983); (71999, 71999); (72001, 72001);
   (72016, 72025); (72096, 72103); (72106, 72144); (72161, 72161);
   (72163, 72163); (72192, 72192); (72203, 72242); (72250, 72250);
   (72272, 72272); (72284, 72329); (72349, 72349); (72368, 72440);
   (72704, 72712); (72714, 72750); (72768, 72768); (72784, 72812);
   (72818, 72847); (72960, 72966); (72968, 72969); (72971, 73008);
   (73030, 73030); (73040, 73049); (73056, 73061); (73063, 73064);
   (73066, 73097); (73112, 73112); (73120, 73129); (73440, 73458);
   (73648, 73648); (73664, 73684); (73728, 74649); (74752, 74862);
   (74880, 75075); (77712, 77808); (77824, 78894); (82944, 83526);
   (92160, 92728); (92736, 92766); (92768, 92777); (92784, 92862);
   (92864, 92873); (92880, 92909); (92928, 92975); (92992, 92995);
   (93008, 93017); (93019, 93025); (93027, 93047); (93053, 93071);
   (93760, 93846); (93952, 94026); (94032, 94032); (94099, 94111);
   (94176, 94177); (94179, 94179); (94208, 100343); (100352, 101589);
   (101632, 101640); (110576, 110579); (110581, 110587); (110589, 110590);
   (110592, 110882); (110928, 110930); (110948, 110951); (110960, 111355);
   (113664, 113770); (113776, 113788); (113792, 113800); (113808, 113817);
   (119520, 119539); (119648, 119672); (119808, 119892); (119894, 119964);
   (119966, 119967); (119970, 119970); (119973, 119974); (119977, 119980);
   (119982, 119993); (119995, 119995); (119997, 120003); (120005, 120069);
   (120071, 120074); (120077, 120084); (120086, 120092); (120094, 120121);
   (120123, 120126); (120128, 120132); (120134, 120134); (120138, 120144);
   (120146, 120485); (120488, 120512); (120514, 120538); (120540, 120570);
   (120572, 120596); (120598, 120628); (120630, 120654); (120656, 120686);
   (120688, 120712); (120714, 120744); (120746, 120770); (120772, 120779);
   (120782, 120831); (122624, 122654); (123136, 123180); (123191, 123197);
   (123200, 123209); (123214, 123214); (123536, 123565); (123584, 123627);
   (123632, 123641); (124896, 124902); (124904, 124907); (124909, 124910);
   (124912, 124926); (124928, 125124); (125127, 125135); (125184, 125251);
   (125259, 125259); (125264, 125273); (126065, 126123); (126125, 126127);
   (126129, 126132); (126209, 126253); (126255, 126269); (126464, 126467);
   (126469, 126495); (126497, 126498); (126500, 126500); (126503, 126503);
   (126505, 126514); (126516, 126519); (126521, 126521); (126523, 126523);
   (126530, 126530); (126535, 126535); (126537, 126537); (126539, 126539);
   (126541, 126543); (126545, 126546); (126548, 126548); (126551, 126551);
   (126553, 126553); (126555, 126555); (126557, 126557); (126559, 126559);
   (126561, 126562); (126564, 126564); (126567, 126570); (126572, 126578);
   (126580, 126583); (126585, 126588); (126590, 126590); (126592, 126601);
   (126603, 126619); (126625, 126627); (126629, 126633); (126635, 126651);
   (127232, 127244); (130032, 130041); (131072, 173791); (173824, 177976);
   (177984, 178205); (178208, 183969); (183984, 191456); (194560, 195101);
   (196608, 201546)]%N.

Definition in_ranges (ranges : list (N * N)) (c : N) : bool :=
  existsb (fun r => between (fst r) (snd r) c) ranges.

Definition python_tables : Unicode :=
  {| isdecimal := in_ranges decimal_ranges; isalnum := in_ranges alnum_ranges |}.

Definition world_ok (now : N) : Env :=
  mkEnv now accept accept true render python_tables.
Definition world_providers_down (now : N) : Env :=
  mkEnv now refuse refuse true render python_tables.
Definition world_broker_down (now : N) : Env :=
  mkEnv now accept accept false render python_tables.

Definition request (ty contact_key contact : string) : dict :=
  <["user_id" := VStr "u1"]> (
  <["notification_type" := VStr ty]> (
  <["message" := VStr "hi"]> (
  <[contact_key := VStr contact]> ∅))).

Definition request_email : dict := request "email" "email" "user@example.com".
Definition request_bad_email : dict := request "email" "email" "bad-email".

(** An email notification accepted by intake, then one delivery attempt
    while the mail provider is down. *)
Definition s_queued : State :=
  run [Intake (world_ok 0) "n1" request_email] empty_state.
Definition s_failed_once : State :=
  run [Deliver (world_providers_down 1000000)] s_queued.



(** A record that is due for a retry, as the scheduler's query sees it. *)
Definition note_due : Notification :=
  set_next_retry_time (VTime 5)
    (set_status (VStr "retry_scheduled")
       (Notification_init "n4" 0 (VStr "u1") (VStr "email") (VStr "hi")
          (VStr "user@example.com") (VStr ""))).
Definition due_doc : dict := to_dict note_due.
Definition s_due : State := mkState [due_doc] [] [] [].

(** An in-app notification as it comes off the queue, with text that is
    neither an address nor a number in its contact attributes. *)
Definition note_in_app : Notification :=
  {| id := VStr "n3"; user_id := VStr "u1"; notification_type := VStr "in_app";
     message := VStr "hi"; email := VStr "nobody"; phone := VStr "none";
     created_at := VStr "1970-01-01 00:00:00"; status := VStr "pending";
     last_error := VNone; retry_count := VInt 0;
     max_retries := VInt MAX_RETRIES; next_retry_time := VNone |}.

(** The same with a malformed address on the email channel, one attempt
    short of its budget. *)
Definition note_last_try : Notification :=
  {| id := VStr "n5"; user_id := VStr "u1"; notification_type := VStr "email";
     message := VStr "hi"; email := VStr "bad-email"; phone := VStr "";
     created_at := VStr "1970-01-01 00:00:00"; status := VStr "retrying";
     last_error := VStr "Invalid email"; retry_count := VInt 4;
     max_retries := VInt MAX_RETRIES; next_retry_time := VNone |}.

(** ** What a pattern denotes

    The sequences of characters a [regex] matches, as a relation; the
    matcher above is related to it below. *)

Inductive matches : regex -> list N -> Prop :=
  | matches_eps : matches Eps []
  | matches_class p c : p c = true -> matches (Class p) [c]
  | matches_cat r1 r2 s1 s2 :
      matches r1 s1 -> matches r2 s2 -> matches (Cat r1 r2) (s1 ++ s2)
  | matches_alt_l r1 r2 s : matches r1 s -> matches (Alt r1 r2) s
  | matches_alt_r r1 r2 s : matches r2 s -> matches (Alt r1 r2) s
  | matches_star_nil r : matches (Star r) []
  | matches_star_app r s1 s2 :
      matches r s1 -> matches (Star r) s2 -> matches (Star r) (s1 ++ s2).

(** Nothing, or the one newline that [$] lets through. *)
Definition line_end (s : list N) : Prop := s = [] \/ s = [ord "010"].

(** ** What the operations do to the collection *)

(** The id a document is found by. *)
Definition idof (doc : dict) : value := get doc "id" VNone.

(** The statuses a [$set] of the program carries. *)
Definition written_statuses : list string :=
  ["sent"; "failed"; "failed_permanently"; "retrying"].

(** A series of [$set]s as the program issues them, in the form the
    collection receives: each carries one of the written statuses, values
    that BSON holds, and either no id or the id it filters on. *)
Inductive updated : list dict -> list dict -> Prop :=
  | updated_refl st : updated st st
  | updated_step st i upd w st' :
      upd !! "status" = Some (VStr w) -> w ∈ written_statuses ->
      (upd !! "id" = None \/ upd !! "id" = Some i) ->
      encodable upd = true ->
      updated (set_first i upd st) st' ->
      updated st st'.

(** A status the program writes, at intake or later. *)
Definition known_status (doc : dict) : Prop :=
  exists w, get doc "status" VNone = VStr w /\ w ∈ "pending" :: written_statuses.

(** The id an intake draws is not yet in the collection. *)
Definition fresh_for (o : op) (s : State) : Prop :=
  match o with
  | Intake _ fresh _ => VStr fresh ∉ map idof (store s)
  | _ => True
  end.

(** ** Attributes, and a notification as JSON shows it *)

(** The keys of [__dict__]. *)
Definition attribute_names : list string :=
  ["id"; "user_id"; "notification_type"; "message"; "email"; "phone";
   "created_at"; "status"; "last_error"; "retry_count"; "max_retries";
   "next_retry_time"].

(** The keys [from_dict] indexes; the others it reads with a default. *)
Definition required_keys : list string :=
  ["user_id"; "notification_type"; "message"; "id"; "created_at"; "status"].

(** Every attribute as [json.dumps(..., default=str)] followed by
    [json.loads] returns it: a [datetime] comes back as its text. *)
Definition json_view (env : Env) (n : Notification) : Notification :=
  {| id := json_default env (id n);
     user_id := json_default env (user_id n);
     notification_type := json_default env (notification_type n);
     message := json_default env (message n);
     email := json_default env (email n);
     phone := json_default env (phone n);
     created_at := json_default env (created_at n);
     status := json_default env (status n);
     last_error := json_default env (last_error n);
     retry_count := json_default env (retry_count n);
     max_retries := json_default env (max_retries n);
     next_retry_time := json_default env (next_retry_time n) |}.

(** ** The form handler *)





(** The notification the JSON intake constructs from a request body. *)
Definition new_notification (env : Env) (fresh : string) (data : dict)
    : Notification :=
  Notification_init fresh (utcnow env)
    (get data "user_id" VNone) (get data "notification_type" VNone)
    (get data "message" VNone) (get data "email" (VStr EmptyString))
    (get data "phone" (VStr EmptyString)).

(** Whether the JSON intake lets a request body through its two checks. *)
Definition admitted (data : dict) : bool :=
  has_key data "user_id" && has_key data "notification_type"
  && has_key data "message"
  && known_type (get data "notification_type" VNone).


(** The provider call of an attempt whose contact passes validation, and
    the provider's answer to it. *)
Definition provider_call (env : Env) (n : Notification)
    : option (call * option string) :=
  if decide (notification_type n = VStr "email") then
    match validate_email (unicode env) (email n) with
    | Ok true => Some (MailSend (email n) (message n),
                       mail_send env (email n) (message n))
    | _ => None
    end
  else if decide (notification_type n = VStr "sms") then
    match validate_phone (unicode env) (phone n) with
    | Ok true => Some (SmsCreate (phone n) (message n),
                       sms_create env (phone n) (message n))
    | _ => None
    end
  else None.

(** What a failed attempt makes of the notification it was given. *)
Definition after_failure (e : string) (k : N) (n : Notification) : Notification :=
  set_retry_count (VInt (k + 1))
    (set_last_error (VStr e) (set_status (VStr "failed") n)).

(** What a tick makes of a document: claimed when it is due. *)
Definition claimed_if_due (now : N) (doc : dict) : dict :=
  if due now doc then <["status" := VStr "retrying"]> doc else doc.

(** ** A notification as the collection holds it *)

(** The values of [__dict__], in the order of [attribute_names]. *)
Definition attributes (n : Notification) : list value :=
  [id n; user_id n; notification_type n; message n; email n; phone n;
   created_at n; status n; last_error n; retry_count n; max_retries n;
   next_retry_time n].

(** Every attribute as a [$set] of [to_dict] stores it: a [datetime] is
    cut to the millisecond. *)
Definition stored_view (n : Notification) : Notification :=
  {| id := bson (id n);
     user_id := bson (user_id n);
     notification_type := bson (notification_type n);
     message := bson (message n);
     email := bson (email n);
     phone := bson (phone n);
     created_at := bson (created_at n);
     status := bson (status n);
     last_error := bson (last_error n);
     retry_count := bson (retry_count n);
     max_retries := bson (max_retries n);
     next_retry_time := bson (next_retry_time n) |}.

(** ** The retry time on records and messages *)




(** ** Further concrete states and notifications *)


(** An email notification with a well-formed address, as it comes off the
    queue. *)
Definition note_valid_email : Notification :=
  {| id := VStr "n8"; user_id := VStr "u1"; notification_type := VStr "email";
     message := VStr "hi"; email := VStr "user@example.com"; phone := VStr "";
     created_at := VStr "1970-01-01 00:00:00"; status := VStr "pending";
     last_error := VNone; retry_count := VInt 0;
     max_retries := VInt MAX_RETRIES; next_retry_time := VNone |}.

(** A notification with a malformed address whose retry count is the
    largest integer that BSON holds. *)
Definition note_at_int64 : Notification :=
  {| id := VStr "n9"; user_id := VStr "u1"; notification_type := VStr "email";
     message := VStr "hi"; email := VStr "bad-email"; phone := VStr "";
     created_at := VStr "1970-01-01 00:00:00"; status := VStr "failed";
     last_error := VStr "Invalid email"; retry_count := VInt (2 ^ 63 - 1);
     max_retries := VInt MAX_RETRIES; next_retry_time := VNone |}.

(** * Lemmas on the model *)

Ltac in_list := apply list_elem_of_In; simpl; tauto.

Lemma to_dict_id n : to_dict n !! "id" = Some (id n).
Proof. destruct n. vm_compute. reflexivity. Qed.
Lemma to_dict_status n : to_dict n !! "status" = Some (status n).
Proof. destruct n. vm_compute. reflexivity. Qed.
Lemma to_dict_last_error n : to_dict n !! "last_error" = Some (last_error n).
Proof. destruct n. vm_compute. reflexivity. Qed.

Lemma to_dict_lookups n :
  to_dict n !! "id" = Some (id n) /\
  to_dict n !! "user_id" = Some (user_id n) /\
  to_dict n !! "notification_type" = Some (notification_type n) /\
  to_dict n !! "message" = Some (message n) /\
  to_dict n !! "email" = Some (email n) /\
  to_dict n !! "phone" = Some (phone n) /\
  to_dict n !! "created_at" = Some (created_at n) /\
  to_dict n !! "status" = Some (status n) /\
  to_dict n !! "last_error" = Some (last_error n) /\
  to_dict n !! "retry_count" = Some (retry_count n) /\
  to_dict n !! "max_retries" = Some (max_retries n) /\
  to_dict n !! "next_retry_time" = Some (next_retry_time n).
Proof. destruct n. vm_compute. repeat split; reflexivity. Qed.

Lemma to_dict_lookup_inv n k v : to_dict n !! k = Some v -> v ∈ attributes n.
Proof.
  unfold to_dict, attributes. intros H.
  repeat (apply lookup_insert_Some in H as [[_ <-]|[_ H]]; [in_list|]).
  rewrite lookup_empty in H. discriminate.
Qed.

(** A document [from_dict] accepts carries the id it returns. *)
Lemma from_dict_id data n : from_dict data = Ok n -> data !! "id" = Some (id n).
Proof.
  unfold from_dict, getitem, exc_bind.
  repeat (case_match; try discriminate).
  intros [= <-]. simplify_eq. reflexivity.
Qed.

Lemma from_dict_fields d n :
  from_dict d = Ok n ->
  d !! "id" = Some (id n) /\
  d !! "user_id" = Some (user_id n) /\
  d !! "notification_type" = Some (notification_type n) /\
  d !! "message" = Some (message n) /\
  email n = get d "email" (VStr EmptyString) /\
  phone n = get d "phone" (VStr EmptyString) /\
  d !! "created_at" = Some (created_at n) /\
  d !! "status" = Some (status n) /\
  last_error n = get d "last_error" VNone /\
  retry_count n = get d "retry_count" (VInt 0) /\
  max_retries n = get d "max_retries" (VInt MAX_RETRIES) /\
  next_retry_time n = get d "next_retry_time" VNone.
Proof.
  unfold from_dict, getitem, exc_bind.
  repeat (case_match; try discriminate).
  intros [= <-]. simplify_eq. simpl. repeat split; reflexivity.
Qed.

(** ** The validators on sample contacts *)

Example validate_email_samples :
  map (validate_email python_tables)
    [VStr "a.b@c-d.org"; VStr "bad-email"; VStr "a@b"; VStr EmptyString; VNone]
  = [Ok true; Ok false; Ok false; Ok false; Ok false].
Proof. vm_compute. reflexivity. Qed.

(** The [$] of the pattern lets one final newline through. *)
Example validate_phone_newline :
  validate_phone python_tables
    (VStr ("+1234567890" ++ String "010" EmptyString)) = Ok true.
Proof. vm_compute. reflexivity. Qed.

Example validate_phone_samples :
  map (validate_phone python_tables)
    [VStr "+1234567890"; VStr "+123456789012345"; VStr "+123456789";
     VStr "+1234567890123456"; VStr "12345"; VStr "+12345abcde"]
  = [Ok true; Ok true; Ok false; Ok false; Ok false; Ok false].
Proof. vm_compute. reflexivity. Qed.

(** Letters and digits beyond ASCII pass as [\w] and [\d]: an accented
    letter, Devanagari digits, mathematical bold digits. *)
Example validate_beyond_ascii :
  validate_email python_tables (VStr "é@example.com") = Ok true /\
  validate_phone python_tables (VStr "+०१२३४५६७८९") = Ok true /\
  validate_phone python_tables (VStr "+𝟎𝟏𝟐𝟑𝟒𝟓𝟔𝟕𝟖𝟗") = Ok true /\
  validate_phone python_tables (VStr "+123456789½") = Ok false /\
  code_points "é०𝟎" = [233; 2406; 120782]%N.
Proof. vm_compute. repeat split; reflexivity. Qed.

(** A contact that is a number makes the validator raise. *)
Example validate_phone_number :
  validate_phone python_tables (VInt 5)
  = Raise (TypeError "expected string or bytes-like object, got 'int'").
Proof. vm_compute. reflexivity. Qed.

(** ** BSON documents and JSON texts *)

Lemma encodable_spec (d : dict) :
  encodable d = true <-> forall k v, d !! k = Some v -> storable v = true.
Proof.
  unfold encodable. rewrite forallb_forall. split.
  - intros H k v Hkv. apply (H (k, v)).
    apply list_elem_of_In, elem_of_map_to_list, Hkv.
  - intros H [k v] Hin. apply list_elem_of_In, elem_of_map_to_list in Hin.
    simpl. eauto.
Qed.

Lemma json_text_spec (d : dict) :
  json_text d = true <-> forall k v, d !! k = Some v -> json_value v = true.
Proof.
  unfold json_text. rewrite forallb_forall. split.
  - intros H k v Hkv. apply (H (k, v)).
    apply list_elem_of_In, elem_of_map_to_list, Hkv.
  - intros H [k v] Hin. apply list_elem_of_In, elem_of_map_to_list in Hin.
    simpl. eauto.
Qed.

Lemma storable_bson v : storable (bson v) = storable v.
Proof. destruct v; reflexivity. Qed.

Lemma bson_json_value v : json_value v = true -> bson v = v.
Proof. destruct v; [reflexivity..|discriminate]. Qed.

Lemma json_value_default env v : json_value (json_default env v) = true.
Proof. destruct v; reflexivity. Qed.



Lemma encodable_to_dict n :
  encodable (to_dict n) = true <->
  Forall (fun v => storable v = true) (attributes n).
Proof.
  rewrite encodable_spec. split.
  - intros H.
    destruct (to_dict_lookups n)
      as (L1 & L2 & L3 & L4 & L5 & L6 & L7 & L8 & L9 & L10 & L11 & L12).
    unfold attributes. repeat constructor; eapply H; eassumption.
  - intros H k v Hkv. rewrite Forall_forall in H.
    apply H, (to_dict_lookup_inv _ _ _ Hkv).
Qed.

Lemma encodable_id n : encodable (to_dict n) = true -> storable (id n) = true.
Proof.
  rewrite encodable_spec. intros H. apply (H "id"), to_dict_id.
Qed.

Lemma bson_to_dict n : bson <$> to_dict n = to_dict (stored_view n).
Proof.
  destruct n. unfold to_dict, stored_view. simpl.
  rewrite !fmap_insert, fmap_empty. reflexivity.
Qed.

Lemma json_to_dict env n :
  json_default env <$> to_dict n = to_dict (json_view env n).
Proof.
  destruct n. unfold to_dict, json_view. simpl.
  rewrite !fmap_insert, fmap_empty. reflexivity.
Qed.

Lemma from_to_dict n : from_dict (to_dict n) = Ok n.
Proof. destruct n. vm_compute. reflexivity. Qed.

Lemma encodable_stored_view n :
  encodable (to_dict n) = true -> encodable (to_dict (stored_view n)) = true.
Proof.
  rewrite !encodable_to_dict. destruct n. unfold attributes. simpl.
  rewrite !Forall_cons, !storable_bson. tauto.
Qed.

(** An update of the attributes is encodable when the new values are. *)
Lemma encodable_after_failure e k n :
  encodable (to_dict n) = true -> (k + 1 < 2 ^ 63)%N ->
  (forall st,
     encodable (to_dict (set_status (VStr st) (after_failure e k n))) = true) /\
  (forall t,
     encodable (to_dict (set_next_retry_time (VTime t) (after_failure e k n)))
     = true).
Proof.
  rewrite encodable_to_dict. intros H Hk.
  assert (storable (VInt (k + 1)) = true) as Hs by (apply N.ltb_lt, Hk).
  destruct n. unfold attributes in H. simpl in H.
  rewrite !Forall_cons in H.
  split; intros x; apply encodable_to_dict; unfold attributes; simpl;
    rewrite !Forall_cons; tauto.
Qed.



(** The setters commute with the stored view. *)
Lemma stored_view_after_failure e k n st :
  stored_view n = n ->
  stored_view (set_status (VStr st) (after_failure e k n))
  = set_status (VStr st) (after_failure e k n).
Proof.
  intros H. destruct n.
  unfold stored_view, after_failure, set_status, set_retry_count,
    set_last_error, set_next_retry_time in *.
  simpl in *. congruence.
Qed.

Lemma stored_view_retry_time e k n t :
  stored_view n = n ->
  stored_view (set_next_retry_time (VTime t) (after_failure e k n))
  = set_next_retry_time (VTime (to_millis t)) (after_failure e k n).
Proof.
  intros H. destruct n.
  unfold stored_view, after_failure, set_status, set_retry_count,
    set_last_error, set_next_retry_time in *.
  simpl in *. congruence.
Qed.

Lemma bson_sent_update : bson <$> sent_update = sent_update.
Proof.
  unfold sent_update. rewrite !fmap_insert, fmap_empty. reflexivity.
Qed.

Lemma bson_retrying_update : bson <$> retrying_update = retrying_update.
Proof.
  unfold retrying_update. rewrite !fmap_insert, fmap_empty. reflexivity.
Qed.

Lemma encodable_sent_update : encodable sent_update = true.
Proof. vm_compute. reflexivity. Qed.

Lemma encodable_retrying_update : encodable retrying_update = true.
Proof. vm_compute. reflexivity. Qed.

(** ** The collection *)

Lemma find_one_match i docs d :
  find_one i docs = Some d -> field_is "id" i d = true.
Proof. intros H. apply find_some in H. tauto. Qed.


Lemma find_one_present (d : dict) docs :
  d ∈ docs -> is_Some (find_one (idof d) docs).
Proof.
  unfold find_one. induction docs as [|d0 rest IH]; intros H.
  - apply elem_of_nil in H. contradiction.
  - simpl. destruct (field_is "id" (idof d) d0) eqn:E; [eauto|].
    apply elem_of_cons in H as [->|H]; [|auto].
    unfold field_is, idof in E. rewrite bool_decide_eq_true_2 in E; auto.
    discriminate.
Qed.

Lemma set_first_found i upd docs d :
  find_one i docs = Some d ->
  field_is "id" i (upd ∪ d) = true ->
  find_one i (set_first i upd docs) = Some (upd ∪ d).
Proof.
  unfold find_one. induction docs as [|d0 rest IH]; simpl; [discriminate|].
  destruct (field_is "id" i d0) eqn:E; simpl.
  - intros [= ->] ->. reflexivity.
  - rewrite E. exact IH.
Qed.

Lemma set_first_missing i upd docs :
  find_one i docs = None -> set_first i upd docs = docs.
Proof.
  unfold find_one. induction docs as [|d0 rest IH]; simpl; [reflexivity|].
  destruct (field_is "id" i d0); [discriminate|].
  intros H. rewrite IH; auto.
Qed.

Lemma set_first_Forall (P : dict -> Prop) i upd docs :
  (forall d, P d -> P (upd ∪ d)) ->
  Forall P docs -> Forall P (set_first i upd docs).
Proof.
  intros Hupd. induction 1 as [|d rest Hd Hrest IH]; simpl; [constructor|].
  destruct (field_is "id" i d); constructor; auto.
Qed.

Lemma field_is_written key v upd d :
  upd !! key = Some v -> field_is key v (upd ∪ d) = true.
Proof.
  intros H. unfold field_is, get.
  rewrite (lookup_union_Some_l _ _ _ _ H). simpl.
  apply bool_decide_eq_true. reflexivity.
Qed.

Lemma field_is_kept key v upd d :
  upd !! key = None -> field_is key v (upd ∪ d) = field_is key v d.
Proof.
  intros H. unfold field_is, get. rewrite lookup_union_r; auto.
Qed.

Lemma lookup_written key v (upd d : dict) :
  upd !! key = Some v -> (upd ∪ d) !! key = Some v.
Proof. apply lookup_union_Some_l. Qed.

Lemma lookup_kept key (upd d : dict) :
  upd !! key = None -> (upd ∪ d) !! key = d !! key.
Proof. intros H. apply lookup_union_r; auto. Qed.

(** After [$set]ting [upd] on the record with id [i], a field of that
    record reads as in [upd ∪ d]. *)
Lemma persisted_set_first i key upd d st q dl ob :
  find_one i st = Some d ->
  field_is "id" i (upd ∪ d) = true ->
  persisted i key (mkState (set_first i upd st) q dl ob) = (upd ∪ d) !! key.
Proof.
  intros Hf Hid. unfold persisted. simpl.
  rewrite (set_first_found _ _ _ _ Hf Hid). reflexivity.
Qed.

(** [update_one] writes when the update and the filter can be encoded,
    and otherwise raises with the collection as it was. *)
Lemma update_one_written i upd s :
  encodable upd = true ->
  storable i = true \/ is_Some (find_one i (store s)) ->
  update_one i upd s =
    (mkState (set_first i (bson <$> upd) (store s)) (queue s) (dlq s)
       (outbox s), Ok tt).
Proof.
  intros He Hf. unfold update_one. rewrite He.
  destruct Hf as [->|Hf]; [reflexivity|].
  rewrite (bool_decide_eq_true_2 _ Hf), orb_true_r. reflexivity.
Qed.

Lemma update_one_cases i upd s :
  (encodable upd = true /\
   update_one i upd s =
     (mkState (set_first i (bson <$> upd) (store s)) (queue s) (dlq s)
        (outbox s), Ok tt)) \/
  exists e, update_one i upd s = (s, Raise e).
Proof.
  unfold update_one. destruct (encodable upd); simpl; [|eauto].
  destruct (storable i || _); eauto.
Qed.

Lemma update_one_to_dict n s :
  update_one (id n) (to_dict n) s =
    if encodable (to_dict n) then
      (mkState (set_first (id n) (to_dict (stored_view n)) (store s)) (queue s)
         (dlq s) (outbox s), Ok tt)
    else (s, Raise (OverflowError "MongoDB can only handle up to 8-byte ints")).
Proof.
  destruct (encodable (to_dict n)) eqn:E.
  - rewrite update_one_written, bson_to_dict; auto using encodable_id.
  - unfold update_one. rewrite E. reflexivity.
Qed.

(** ** Delivery *)

(** [send_notification] never raises, touches neither the collection nor
    the queues, and leaves either [sent] or [failed] with the error
    text. *)
Lemma send_notification_cases env n s :
  exists s' r,
    send_notification env n s = (s', Ok r) /\
    store s' = store s /\ queue s' = queue s /\ dlq s' = dlq s /\
    (r = (set_status (VStr "sent") n, true) \/
     exists e, r = (set_last_error (VStr e) (set_status (VStr "failed") n),
                    false)).
Proof.
  unfold send_notification, try_except, bind, dispatch, lift, raise, ret,
    provider.
  repeat case_decide.
  - destruct (validate_email (unicode env) (email n)) as [[|]|e]; simpl;
      [destruct (mail_send env (email n) (message n)); simpl| |];
      eauto 10.
  - destruct (validate_phone (unicode env) (phone n)) as [[|]|e]; simpl;
      [destruct (sms_create env (phone n) (message n)); simpl| |];
      eauto 10.
  - eauto 10.
Qed.

(** A type other than [email] and [sms] is delivered without a look at the
    contact and without a provider call. *)
Lemma send_notification_no_channel env n s :
  notification_type n <> VStr "email" ->
  notification_type n <> VStr "sms" ->
  send_notification env n s = (s, Ok (set_status (VStr "sent") n, true)).
Proof.
  intros H1 H2.
  unfold send_notification, try_except, bind, dispatch, ret.
  repeat case_decide; try contradiction. reflexivity.
Qed.


Lemma send_notification_provider env n s c answer :
  provider_call env n = Some (c, answer) ->
  send_notification env n s =
    (mkState (store s) (queue s) (dlq s) (outbox s ++ [c]),
     match answer with
     | None => Ok (set_status (VStr "sent") n, true)
     | Some e =>
         Ok (set_last_error (VStr e) (set_status (VStr "failed") n), false)
     end).
Proof.
  unfold provider_call, send_notification, try_except, bind, dispatch,
    lift, raise, ret, provider.
  repeat case_decide; try discriminate.
  - destruct (validate_email (unicode env) (email n)) as [[|]|e]; try discriminate.
    intros [= <- <-]. simpl.
    destruct (mail_send env (email n) (message n)); reflexivity.
  - destruct (validate_phone (unicode env) (phone n)) as [[|]|e]; try discriminate.
    intros [= <- <-]. simpl.
    destruct (sms_create env (phone n) (message n)); reflexivity.
Qed.

Lemma send_notification_outbox env n s :
  outbox (fst (send_notification env n s)) = outbox s \/
  exists c, outbox (fst (send_notification env n s)) = (outbox s ++ [c])%list.
Proof.
  unfold send_notification, try_except, bind, dispatch, lift, raise, ret,
    provider.
  repeat case_decide.
  - destruct (validate_email (unicode env) (email n)) as [[|]|e]; simpl;
      [destruct (mail_send env (email n) (message n)); simpl| |]; eauto.
  - destruct (validate_phone (unicode env) (phone n)) as [[|]|e]; simpl;
      [destruct (sms_create env (phone n) (message n)); simpl| |]; eauto.
  - eauto.
Qed.

(** A failed attempt leaves the notification it was given with status
    [failed] and the text of the error. *)
Lemma send_notification_failed env n s s1 n1 :
  send_notification env n s = (s1, Ok (n1, false)) ->
  store s1 = store s /\ queue s1 = queue s /\ dlq s1 = dlq s /\
  exists e, n1 = set_last_error (VStr e) (set_status (VStr "failed") n).
Proof.
  intros Hs.
  destruct (send_notification_cases env n s)
    as (s1' & r & Hs' & Hst & Hq & Hdl & Hr).
  rewrite Hs in Hs'. injection Hs' as <- <-.
  destruct Hr as [[=]|[e [= ->]]]. eauto 10.
Qed.

(** ** The worker *)

Lemma deserialize_inv b n :
  deserialize b = Ok n ->
  exists data, json_loads b = Ok data /\ from_dict data = Ok n.
Proof.
  unfold deserialize, exc_bind. destruct (json_loads b); [eauto|discriminate].
Qed.

Lemma json_loads_text b data : json_loads b = Ok data -> json_text data = true.
Proof.
  destruct b as [raw|d]; simpl; [discriminate|].
  destruct (json_text d) eqn:E; [|discriminate]. intros [= <-]. exact E.
Qed.

(** A notification read from a message holds no [datetime]: the
    collection stores its attributes as they are. *)
Lemma deserialize_stored_view b n : deserialize b = Ok n -> stored_view n = n.
Proof.
  intros (data & Hl & Hf)%deserialize_inv.
  pose proof (proj1 (json_text_spec data) (json_loads_text _ _ Hl)) as Hj.
  assert (forall k v, data !! k = Some v -> bson v = v) as J
    by (intros; eapply bson_json_value, Hj; eauto).
  assert (forall k dflt, bson dflt = dflt ->
            bson (get data k dflt) = get data k dflt) as G.
  { intros k dflt Hd. unfold get. destruct (data !! k) eqn:E; simpl; eauto. }
  destruct (from_dict_fields data n Hf)
    as (F1 & F2 & F3 & F4 & F5 & F6 & F7 & F8 & F9 & F10 & F11 & F12).
  destruct n. unfold stored_view. simpl in *. subst.
  f_equal; eauto.
Qed.

Lemma process_notification_undecodable env b s e :
  deserialize b = Raise e -> process_notification env b s = (s, Ok false).
Proof.
  unfold deserialize, exc_bind, process_notification, try_except, bind, lift.
  destruct (json_loads b) as [data|]; simpl; [|reflexivity].
  intros ->. reflexivity.
Qed.

(** A delivered notification: the [$set] of [sent] is issued; it raises,
    and the message is rejected, only when the id can neither be encoded
    nor be found. *)
Lemma process_notification_sent_cases env b n s s1 n1 :
  deserialize b = Ok n ->
  send_notification env n s = (s1, Ok (n1, true)) ->
  process_notification env b s =
    (mkState (set_first (id n1) sent_update (store s1)) (queue s1) (dlq s1)
       (outbox s1), Ok true) \/
  process_notification env b s = (s1, Ok false).
Proof.
  intros (data & Hl & Hd)%deserialize_inv Hs.
  unfold process_notification, try_except, bind, lift.
  rewrite Hl, Hd, Hs.
  destruct (update_one_cases (id n1) sent_update s1) as [[_ ->]|[e ->]].
  - left. rewrite bson_sent_update. reflexivity.
  - right. reflexivity.
Qed.

Lemma process_notification_sent env b n s s1 n1 :
  deserialize b = Ok n ->
  send_notification env n s = (s1, Ok (n1, true)) ->
  storable (id n1) = true \/ is_Some (find_one (id n1) (store s1)) ->
  process_notification env b s =
    (mkState (set_first (id n1) sent_update (store s1)) (queue s1) (dlq s1)
       (outbox s1), Ok true).
Proof.
  intros (data & Hl & Hd)%deserialize_inv Hs Hi.
  unfold process_notification, try_except, bind, lift.
  rewrite Hl, Hd, Hs.
  rewrite (update_one_written _ _ _ encodable_sent_update Hi), bson_sent_update.
  reflexivity.
Qed.

(** A failed attempt on integer counts, in full: the record is written
    when the notification can be encoded, and otherwise the message is
    rejected with nothing written and nothing published. *)
Lemma process_notification_failed_cases env b n s s1 e k m :
  deserialize b = Ok n ->
  send_notification env n s =
    (s1, Ok (set_last_error (VStr e) (set_status (VStr "failed") n), false)) ->
  retry_count n = VInt k ->
  max_retries n = VInt m ->
  process_notification env b s =
    let n1 := after_failure e k n in
    if (m <=? k + 1)%N then
      let n2 := set_status (VStr "failed_permanently") n1 in
      if encodable (to_dict n2) then
        let st := set_first (id n) (to_dict (stored_view n2)) (store s1) in
        if broker_up env then
          (mkState st (queue s1) (dlq s1 ++ [json_dumps env (to_dict n2)])
             (outbox s1), Ok true)
        else (mkState st (queue s1) (dlq s1) (outbox s1), Ok false)
      else (s1, Ok false)
    else
      let n2 := set_next_retry_time
                  (VTime (calculate_next_retry_time (utcnow env) (k + 1))) n1 in
      if encodable (to_dict n2) then
        (mkState (set_first (id n) (to_dict (stored_view n2)) (store s1))
           (queue s1) (dlq s1) (outbox s1), Ok true)
      else (s1, Ok false).
Proof.
  intros (data & Hl & Hd)%deserialize_inv Hs Hk Hm.
  unfold process_notification, try_except, bind, lift.
  rewrite Hl, Hd, Hs. simpl. rewrite Hk, Hm. simpl.
  fold (after_failure e k n).
  destruct (m <=? k + 1)%N; simpl.
  - match goal with
    | |- context [update_one ?i (to_dict ?x) s1] =>
        change i with (id x); rewrite (update_one_to_dict x s1);
        destruct (encodable (to_dict x))
    end; [|reflexivity].
    unfold basic_publish. simpl. destruct (broker_up env); reflexivity.
  - match goal with
    | |- context [update_one ?i (to_dict ?x) s1] =>
        change i with (id x); rewrite (update_one_to_dict x s1);
        destruct (encodable (to_dict x))
    end; reflexivity.
Qed.

(** The same when every attribute of the message and the new count fit:
    the record is written, with the retry time cut to the millisecond. *)
Lemma process_notification_failed env b n s s1 e k m :
  deserialize b = Ok n ->
  send_notification env n s =
    (s1, Ok (set_last_error (VStr e) (set_status (VStr "failed") n), false)) ->
  retry_count n = VInt k ->
  max_retries n = VInt m ->
  encodable (to_dict n) = true -> (k + 1 < 2 ^ 63)%N ->
  process_notification env b s =
    let n1 := after_failure e k n in
    if (m <=? k + 1)%N then
      let n2 := set_status (VStr "failed_permanently") n1 in
      let st := set_first (id n) (to_dict n2) (store s1) in
      if broker_up env then
        (mkState st (queue s1) (dlq s1 ++ [json_dumps env (to_dict n2)])
           (outbox s1), Ok true)
      else (mkState st (queue s1) (dlq s1) (outbox s1), Ok false)
    else
      let n2 := set_next_retry_time
                  (VTime (to_millis
                            (calculate_next_retry_time (utcnow env) (k + 1))))
                  n1 in
      (mkState (set_first (id n) (to_dict n2) (store s1)) (queue s1) (dlq s1)
         (outbox s1), Ok true).
Proof.
  intros Hd Hs Hk Hm He Hb.
  rewrite (process_notification_failed_cases _ _ _ _ _ _ _ _ Hd Hs Hk Hm).
  cbv zeta.
  destruct (encodable_after_failure e k n He Hb) as [E1 E2].
  pose proof (deserialize_stored_view _ _ Hd) as Hv.
  rewrite E1, E2.
  rewrite (stored_view_after_failure _ _ _ _ Hv).
  rewrite (stored_view_retry_time _ _ _ _ Hv). reflexivity.
Qed.

(** Counts that are not integers make the increment or the comparison
    raise: the message is rejected with nothing written. *)
Lemma process_notification_bad_counts env b n s s1 e :
  deserialize b = Ok n ->
  send_notification env n s =
    (s1, Ok (set_last_error (VStr e) (set_status (VStr "failed") n), false)) ->
  (forall k m, retry_count n = VInt k -> max_retries n = VInt m -> False) ->
  process_notification env b s = (s1, Ok false).
Proof.
  intros (data & Hl & Hd)%deserialize_inv Hs Hbad.
  unfold process_notification, try_except, bind, lift.
  rewrite Hl, Hd, Hs.
  cbv beta iota zeta delta [retry_count max_retries set_last_error set_status
                            set_retry_count].
  destruct n as [i u ty msg em ph c st le rc mr nrt]. simpl in Hbad.
  destruct rc as [|k| |]; try reflexivity.
  destruct mr as [|m| |]; try reflexivity.
  destruct (Hbad k m eq_refl eq_refl).
Qed.

(** An attempt leaves the work queue alone, publishes at most one
    dead-letter message, makes at most one provider call and does not
    raise. *)
Lemma process_notification_frame env b s :
  let s' := fst (process_notification env b s) in
  queue s' = queue s /\
  (dlq s' = dlq s \/ exists m, dlq s' = (dlq s ++ [m])%list) /\
  (outbox s' = outbox s \/ exists c, outbox s' = (outbox s ++ [c])%list) /\
  exists ok, snd (process_notification env b s) = Ok ok.
Proof.
  cbv zeta. destruct (deserialize b) as [n|e] eqn:Hd.
  2:{ erewrite process_notification_undecodable; eauto 10. }
  pose proof (send_notification_outbox env n s) as Ho.
  destruct (send_notification_cases env n s)
    as (s1 & r & Hs & _ & Hq & Hdl & [->|[e ->]]);
    rewrite Hs in Ho; simpl in Ho.
  - destruct (process_notification_sent_cases _ _ _ _ _ _ Hd Hs) as [->| ->];
      simpl; rewrite ?Hq, ?Hdl; eauto 10.
  - destruct (retry_count n) as [|k| |] eqn:Hk;
      try (rewrite (process_notification_bad_counts _ _ _ _ _ _ Hd Hs)
             by congruence; simpl; rewrite Hq, Hdl; eauto 10).
    destruct (max_retries n) as [|m| |] eqn:Hm;
      try (rewrite (process_notification_bad_counts _ _ _ _ _ _ Hd Hs)
             by congruence; simpl; rewrite Hq, Hdl; eauto 10).
    rewrite (process_notification_failed_cases _ _ _ _ _ _ _ _ Hd Hs Hk Hm).
    cbv zeta.
    destruct (m <=? k + 1)%N;
      match goal with
      | |- context [encodable ?d] => destruct (encodable d)
      end; [destruct (broker_up env)| | |]; simpl;
      rewrite ?Hq, ?Hdl; eauto 10.
Qed.

(** ** The broker *)

Lemma publish_notification_up env n s :
  broker_up env = true ->
  publish_notification env n s =
    (mkState (store s) (queue s ++ [json_dumps env (to_dict n)]) (dlq s)
       (outbox s), Ok true).
Proof.
  intros H. unfold publish_notification, try_except, bind, basic_publish.
  rewrite H. reflexivity.
Qed.

Lemma publish_notification_down env n s :
  broker_up env = false -> publish_notification env n s = (s, Ok false).
Proof.
  intros H. unfold publish_notification, try_except, bind, basic_publish.
  rewrite H. reflexivity.
Qed.

Lemma publish_notification_store env n s :
  store (fst (publish_notification env n s)) = store s.
Proof.
  destruct (broker_up env) eqn:E.
  - rewrite publish_notification_up; auto.
  - rewrite publish_notification_down; auto.
Qed.

(** ** Reading a message back *)

Lemma deserialize_dumps env n :
  deserialize (json_dumps env (to_dict n)) = Ok (json_view env n).
Proof.
  unfold deserialize, json_dumps, json_loads.
  replace (json_text (json_default env <$> to_dict n)) with true.
  2:{ symmetry. apply json_text_spec. intros k v.
      rewrite lookup_fmap. destruct (to_dict n !! k); simpl; [|discriminate].
      intros [= <-]. apply json_value_default. }
  rewrite json_to_dict. apply from_to_dict.
Qed.

(** ** Manual retry and the scheduler's claim, step by step *)

Lemma complete_from_dict doc : complete doc -> exists n, from_dict doc = Ok n.
Proof.
  unfold complete. rewrite !Forall_cons.
  intros ([u Hu] & [t Ht] & [m Hm] & [i Hi] & [c Hc] & [st Hst] & _).
  unfold from_dict, getitem, exc_bind.
  rewrite Hu, Ht, Hm, Hi, Hc, Hst. eauto.
Qed.

Lemma retry_notification_cases env i s doc n :
  find_one (VStr i) (store s) = Some doc ->
  from_dict doc = Ok n ->
  retry_notification env i s =
    if encodable (to_dict (reset_for_retry n)) then
      let st := set_first (VStr i)
                  (to_dict (stored_view (reset_for_retry n))) (store s) in
      if broker_up env then
        (mkState st (queue s ++ [json_dumps env (to_dict (reset_for_retry n))])
           (dlq s) (outbox s), Ok Queued)
      else
        (mkState st (queue s) (dlq s) (outbox s),
         Ok (ServerError "Retry failed"))
    else (s, Raise (OverflowError "MongoDB can only handle up to 8-byte ints")).
Proof.
  intros Hf Hd. unfold retry_notification. rewrite Hf.
  unfold bind at 1, lift. rewrite Hd. unfold bind at 1.
  fold (reset_for_retry n).
  destruct (encodable (to_dict (reset_for_retry n))) eqn:E.
  - rewrite update_one_written, bson_to_dict; auto.
    unfold bind. cbv zeta.
    destruct (broker_up env) eqn:Eb.
    + rewrite publish_notification_up; auto.
    + rewrite publish_notification_down; auto.
  - unfold update_one. rewrite E. reflexivity.
Qed.


Lemma found_id i docs doc n :
  find_one (VStr i) docs = Some doc -> from_dict doc = Ok n -> id n = VStr i.
Proof.
  intros Hf Hd.
  pose proof (from_dict_id _ _ Hd) as H1.
  pose proof (find_one_match _ _ _ Hf) as H2.
  unfold field_is, get in H2. rewrite H1 in H2. simpl in H2.
  apply bool_decide_eq_true in H2. exact H2.
Qed.


Lemma claim_found env doc n s :
  from_dict doc = Ok n ->
  storable (id n) = true \/ is_Some (find_one (id n) (store s)) ->
  claim env doc s =
    let st := set_first (id n) retrying_update (store s) in
    if broker_up env then
      (mkState st (queue s ++ [json_dumps env (to_dict n)]) (dlq s) (outbox s),
       Ok tt)
    else (mkState st (queue s) (dlq s) (outbox s), Ok tt).
Proof.
  intros Hd Hi. unfold claim, bind, lift. rewrite Hd.
  rewrite (update_one_written _ _ _ encodable_retrying_update Hi),
    bson_retrying_update.
  destruct (broker_up env) eqn:E.
  - rewrite publish_notification_up; auto.
  - rewrite publish_notification_down; auto.
Qed.

Lemma retrying_update_union (d : dict) :
  retrying_update ∪ d = <["status" := VStr "retrying"]> d.
Proof.
  unfold retrying_update. rewrite <- insert_union_l.
  rewrite (left_id ∅ (∪)). reflexivity.
Qed.



(** ** Intake *)

Lemma send_notification_api_cases env fresh data s :
  admitted data = true ->
  send_notification_api env fresh data s =
    let n := new_notification env fresh data in
    if encodable (to_dict n) then
      if broker_up env then
        (mkState (store s ++ [to_dict n])
           (queue s ++ [json_dumps env (to_dict n)]) (dlq s) (outbox s),
         Ok (Created (VStr fresh)))
      else
        (mkState (store s ++ [to_dict n]) (queue s) (dlq s) (outbox s),
         Ok (ServerError "Queueing failed"))
    else (s, Raise (OverflowError "MongoDB can only handle up to 8-byte ints")).
Proof.
  unfold admitted, send_notification_api. intros H.
  apply andb_true_iff in H as [-> ->]. simpl.
  fold (new_notification env fresh data). unfold bind, insert_one.
  destruct (encodable (to_dict (new_notification env fresh data)));
    [|reflexivity].
  destruct (broker_up env) eqn:E;
    [rewrite publish_notification_up by exact E
    |rewrite publish_notification_down by exact E]; reflexivity.
Qed.


Lemma send_notification_api_refused env fresh data s :
  admitted data = false ->
  exists msg, send_notification_api env fresh data s = (s, Ok (BadRequest msg)).
Proof.
  unfold admitted, send_notification_api. intros H.
  destruct (has_key data "user_id" && has_key data "notification_type"
            && has_key data "message"); simpl in *; [|eauto].
  rewrite H. simpl. eauto.
Qed.

(** Intake leaves the collection alone or appends the notification it
    constructed, which BSON can hold. *)
Lemma send_notification_api_store env fresh data s :
  store (fst (send_notification_api env fresh data s)) = store s \/
  exists uid ty msg em ph,
    encodable (to_dict (Notification_init fresh (utcnow env)
                          uid ty msg em ph)) = true /\
    store (fst (send_notification_api env fresh data s)) =
      (store s ++ [to_dict (Notification_init fresh (utcnow env)
                              uid ty msg em ph)])%list.
Proof.
  destruct (admitted data) eqn:Ha.
  - rewrite (send_notification_api_cases _ _ _ _ Ha). cbv zeta.
    unfold new_notification.
    match goal with
    | |- context [encodable ?d] => destruct (encodable d) eqn:E
    end; [|left; reflexivity].
    right. do 5 eexists. split; [exact E|].
    destruct (broker_up env); reflexivity.
  - destruct (send_notification_api_refused env fresh data s Ha) as [msg ->].
    left. reflexivity.
Qed.

(** ** The footprint of the operations on the collection *)

Lemma updated_one st i upd w :
  upd !! "status" = Some (VStr w) -> w ∈ written_statuses ->
  (upd !! "id" = None \/ upd !! "id" = Some i) ->
  encodable upd = true ->
  updated st (set_first i upd st).
Proof. intros. eapply updated_step; eauto. constructor. Qed.

Lemma updated_trans st1 st2 st3 :
  updated st1 st2 -> updated st2 st3 -> updated st1 st3.
Proof.
  induction 1; [auto|]. intros Hrest. eapply updated_step; eauto.
Qed.

Lemma process_notification_updated env b s :
  updated (store s) (store (fst (process_notification env b s))).
Proof.
  destruct (deserialize b) as [n|e] eqn:Hd.
  2:{ erewrite process_notification_undecodable; eauto. constructor. }
  pose proof (deserialize_stored_view _ _ Hd) as Hv.
  destruct (send_notification_cases env n s)
    as (s1 & r & Hs & Hst & _ & _ & [->|[e ->]]).
  - destruct (process_notification_sent_cases _ _ _ _ _ _ Hd Hs) as [->| ->];
      simpl; rewrite Hst; [|constructor].
    apply (updated_one _ _ _ "sent");
      [reflexivity|in_list|left; reflexivity|apply encodable_sent_update].
  - destruct (retry_count n) as [|k| |] eqn:Hk;
      try (rewrite (process_notification_bad_counts _ _ _ _ _ _ Hd Hs)
             by congruence; simpl; rewrite Hst; constructor).
    destruct (max_retries n) as [|m| |] eqn:Hm;
      try (rewrite (process_notification_bad_counts _ _ _ _ _ _ Hd Hs)
             by congruence; simpl; rewrite Hst; constructor).
    rewrite (process_notification_failed_cases _ _ _ _ _ _ _ _ Hd Hs Hk Hm).
    cbv zeta.
    destruct (m <=? k + 1)%N;
      match goal with
      | |- context [encodable ?d] => destruct (encodable d) eqn:E
      end; [destruct (broker_up env)| | |]; simpl; rewrite Hst;
      try constructor.
    + apply (updated_one _ _ _ "failed_permanently");
        [rewrite to_dict_status; reflexivity|in_list
        |right; rewrite (stored_view_after_failure _ _ _ _ Hv), to_dict_id;
         reflexivity
        |apply encodable_stored_view, E].
    + apply (updated_one _ _ _ "failed_permanently");
        [rewrite to_dict_status; reflexivity|in_list
        |right; rewrite (stored_view_after_failure _ _ _ _ Hv), to_dict_id;
         reflexivity
        |apply encodable_stored_view, E].
    + apply (updated_one _ _ _ "failed");
        [rewrite to_dict_status; reflexivity|in_list
        |right; rewrite (stored_view_retry_time _ _ _ _ Hv), to_dict_id;
         reflexivity
        |apply encodable_stored_view, E].
Qed.

(** The state the consumer leaves is the one the attempt leaves. *)
Lemma callback_fst env s b rest :
  queue s = b :: rest ->
  fst (callback env s)
  = fst (process_notification env b
           (mkState (store s) rest (dlq s) (outbox s))).
Proof.
  intros Hq. unfold callback. rewrite Hq.
  destruct (process_notification env b _) as [s2 [[|]|]]; reflexivity.
Qed.

Lemma callback_updated env s :
  updated (store s) (store (fst (callback env s))).
Proof.
  destruct (queue s) as [|b rest] eqn:Hq.
  - unfold callback. rewrite Hq. constructor.
  - rewrite (callback_fst _ _ _ _ Hq).
    apply (process_notification_updated env b
             (mkState (store s) rest (dlq s) (outbox s))).
Qed.

Lemma claim_updated env doc s :
  updated (store s) (store (fst (claim env doc s))).
Proof.
  unfold claim, bind, lift.
  destruct (from_dict doc) as [n|e] eqn:Hd; [|constructor].
  destruct (update_one_cases (id n) retrying_update s) as [[_ ->]|[e ->]];
    [|constructor].
  rewrite bson_retrying_update.
  match goal with
  | |- context [publish_notification ?e ?x ?y] =>
      pose proof (publish_notification_store e x y) as Hp;
      destruct (publish_notification e x y) as [s2 [[|]|]]
  end; simpl in *; rewrite Hp;
    apply (updated_one _ _ _ "retrying");
    try reflexivity; try in_list; left; reflexivity.
Qed.

Lemma for_each_claim_updated env docs s :
  updated (store s) (store (fst (for_each (claim env) docs s))).
Proof.
  revert s. induction docs as [|doc rest IH]; intros s; [constructor|].
  simpl. unfold bind.
  pose proof (claim_updated env doc s) as H1.
  destruct (claim env doc s) as [s1 [[]|e]]; simpl in *; [|exact H1].
  eapply updated_trans; [exact H1|apply IH].
Qed.

Lemma retry_notification_updated env i s :
  updated (store s) (store (fst (retry_notification env i s))).
Proof.
  destruct (find_one (VStr i) (store s)) as [doc|] eqn:Hf.
  2:{ unfold retry_notification. rewrite Hf. constructor. }
  destruct (from_dict doc) as [n|e] eqn:Hd.
  2:{ unfold retry_notification, bind, lift. rewrite Hf, Hd. constructor. }
  rewrite (retry_notification_cases _ _ _ _ _ Hf Hd).
  destruct (encodable (to_dict (reset_for_retry n))) eqn:E; [|constructor].
  assert (to_dict (stored_view (reset_for_retry n)) !! "id" = Some (VStr i))
    as Hid.
  { rewrite to_dict_id. simpl. rewrite (found_id _ _ _ _ Hf Hd). reflexivity. }
  cbv zeta. destruct (broker_up env); simpl;
    apply (updated_one _ _ _ "retrying"); auto using encodable_stored_view;
    try in_list; rewrite to_dict_status; reflexivity.
Qed.

Lemma run_op_updated o s :
  match o with
  | Intake _ _ _ => True
  | _ => updated (store s) (store (run_op o s))
  end.
Proof.
  destruct o; simpl; auto.
  - apply callback_updated.
  - apply for_each_claim_updated.
  - apply retry_notification_updated.
Qed.

Lemma idof_union_kept i upd (d : dict) :
  (upd !! "id" = None \/ upd !! "id" = Some i) ->
  field_is "id" i d = true -> idof (upd ∪ d) = idof d.
Proof.
  intros [H|H] Hm; unfold idof, get.
  - rewrite lookup_union_r; auto.
  - rewrite (lookup_union_Some_l _ _ _ _ H). simpl.
    unfold field_is, get in Hm. apply bool_decide_eq_true in Hm. auto.
Qed.

Lemma set_first_ids i upd st :
  (upd !! "id" = None \/ upd !! "id" = Some i) ->
  map idof (set_first i upd st) = map idof st.
Proof.
  intros Hid. induction st as [|d rest IH]; simpl; [reflexivity|].
  destruct (field_is "id" i d) eqn:E; simpl.
  - rewrite (idof_union_kept _ _ _ Hid E). reflexivity.
  - rewrite IH. reflexivity.
Qed.

Lemma updated_ids st st' : updated st st' -> map idof st' = map idof st.
Proof.
  induction 1 as [|st i upd w st' Hs Hw Hid He _ IH]; [reflexivity|].
  rewrite IH. apply set_first_ids, Hid.
Qed.

Lemma updated_length st st' : updated st st' -> length st' = length st.
Proof.
  intros H. apply updated_ids in H. apply (f_equal (@length _)) in H.
  rewrite !length_map in H. exact H.
Qed.

Lemma updated_known_status st st' :
  updated st st' -> Forall known_status st -> Forall known_status st'.
Proof.
  induction 1 as [|st i upd w st' Hs Hw Hid He _ IH]; [auto|].
  intros H. apply IH, set_first_Forall; [|exact H].
  intros d _. exists w. unfold get.
  rewrite (lookup_union_Some_l _ _ _ _ Hs). simpl. split; [reflexivity|].
  apply list_elem_of_further, Hw.
Qed.

(** ** Invariants of the collection

    Every write to the collection is either the insertion of a freshly
    constructed notification or a [$set] that carries a status other than
    [pending], both with values that BSON holds.  A property of documents
    that both preserve holds of every record of every reachable state. *)

Section Invariant.

Variable P : dict -> Prop.

Hypothesis P_new : forall fresh now uid ty msg em ph,
  encodable (to_dict (Notification_init fresh now uid ty msg em ph)) = true ->
  P (to_dict (Notification_init fresh now uid ty msg em ph)).

Hypothesis P_set : forall (upd d : dict) st,
  upd !! "status" = Some (VStr st) -> st <> "pending" ->
  encodable upd = true ->
  P d -> P (upd ∪ d).




End Invariant.



Lemma reachable_known_status s :
  reachable s -> Forall known_status (store s).
Proof.
  intros [ops ->].
  assert (forall s0, Forall known_status (store s0) ->
                     Forall known_status (store (run ops s0))) as H.
  { induction ops as [|o ops IH]; intros s0 H0; [exact H0|].
    simpl. apply IH.
    pose proof (run_op_updated o s0) as Hu.
    destruct o as [env fresh data|env|env|env i];
      try (eapply updated_known_status; [exact Hu|exact H0]).
    simpl.
    destruct (send_notification_api_store env fresh data s0)
      as [->|(uid & ty & msg & em & ph & _ & ->)]; [exact H0|].
    apply Forall_app. split; [exact H0|]. constructor; [|constructor].
    exists "pending". split; [reflexivity|in_list]. }
  apply H. constructor.
Qed.

Lemma known_status_not_due now st :
  Forall known_status st -> List.filter (due now) st = [].
Proof.
  induction 1 as [|d rest (w & Hw & Hin) _ IH]; [reflexivity|].
  simpl. rewrite IH.
  replace (due now d) with false; [reflexivity|].
  unfold due, field_is. rewrite Hw.
  rewrite bool_decide_eq_false_2; [reflexivity|].
  intros [= ->]. apply list_elem_of_In in Hin. simpl in Hin.
  intuition discriminate.
Qed.

Lemma reachable_tick env s :
  reachable s -> process_scheduled_retries env s = (s, Ok tt).
Proof.
  intros Hr. unfold process_scheduled_retries.
  rewrite (known_status_not_due _ _ (reachable_known_status s Hr)).
  reflexivity.
Qed.

Lemma reachable_step o s : reachable s -> reachable (run_op o s).
Proof.
  intros [ops ->]. exists (ops ++ [o])%list.
  unfold run. rewrite fold_left_app. reflexivity.
Qed.

Lemma s_queued_reachable : reachable s_queued.
Proof. exists [Intake (world_ok 0) "n1" request_email]. reflexivity. Qed.

Lemma s_failed_once_reachable : reachable s_failed_once.
Proof.
  change s_failed_once
    with (run_op (Deliver (world_providers_down 1000000)) s_queued).
  apply reachable_step, s_queued_reachable.
Qed.


(** ** The retry time on reachable states

    Every message on the work queue was published by intake or by manual
    retry, with no retry time; a record is set to [failed_permanently]
    from such a message, and to [retrying] by manual retry (the scheduler
    finds nothing to claim). *)








(** * The claims *)

(** ** A failed attempt with retry budget left *)

(** Whatever the notification and the error, a failed attempt that leaves
    retry budget and writes its record persists the status [failed]. *)
Lemma retry_branch_persists_failed env b n s s1 e k m cur :
  deserialize b = Ok n ->
  send_notification env n s =
    (s1, Ok (set_last_error (VStr e) (set_status (VStr "failed") n), false)) ->
  retry_count n = VInt k -> max_retries n = VInt m -> (k + 1 < m)%N ->
  encodable (to_dict n) = true -> (k + 1 < 2 ^ 63)%N ->
  find_one (id n) (store s) = Some cur ->
  persisted (id n) "status" (fst (process_notification env b s))
    = Some (VStr "failed").
Proof.
  intros Hd Hs Hk Hm Hlt He Hb Hf.
  destruct (send_notification_cases env n s)
    as (s1' & r & Hs' & Hst & _ & _ & _).
  rewrite Hs in Hs'. injection Hs' as <- <-.
  rewrite (process_notification_failed _ _ _ _ _ _ _ _ Hd Hs Hk Hm He Hb).
  cbv zeta.
  replace (m <=? k + 1)%N with false by (symmetry; apply N.leb_gt, Hlt).
  cbn [fst]. rewrite Hst.
  set (n2 := set_next_retry_time _ _).
  assert (field_is "id" (id n) (to_dict n2 ∪ cur) = true) as Hid
    by (apply field_is_written; rewrite to_dict_id; reflexivity).
  rewrite (persisted_set_first _ _ _ _ _ _ _ _ Hf Hid).
  apply lookup_written. destruct n; reflexivity.
Qed.

(** C1, evaluated where it fails: intake accepts an email notification
    with a well-formed address, the mail provider refuses the first
    attempt, and one of five retries is used.  The record is persisted
    with the retry time (60 seconds after the clock read) but with the
    status [failed] that [send_notification] left, not
    [retry_scheduled]. *)
Theorem transient_failure_persists_failed :
  persisted (VStr "n1") "status" s_queued = Some (VStr "pending") /\
  persisted (VStr "n1") "status" s_failed_once = Some (VStr "failed") /\
  persisted (VStr "n1") "status" s_failed_once
    <> Some (VStr "retry_scheduled") /\
  persisted (VStr "n1") "retry_count" s_failed_once = Some (VInt 1) /\
  persisted (VStr "n1") "max_retries" s_failed_once = Some (VInt 5) /\
  persisted (VStr "n1") "next_retry_time" s_failed_once
    = Some (VTime (calculate_next_retry_time 1000000 1)) /\
  outbox s_failed_once = [MailSend (VStr "user@example.com") (VStr "hi")].
Proof. vm_compute. repeat split; try reflexivity. discriminate. Qed.

(** ** The retry time and the status *)







(** ** Malformed contacts *)


(** The same run for the address [bad-email] on the email channel. *)
Example bad_email_consumes_retry :
  let s := run [Intake (world_ok 0) "n6" request_bad_email;
                Deliver (world_ok 1000000)] empty_state in
  persisted (VStr "n6") "status" s = Some (VStr "failed") /\
  persisted (VStr "n6") "last_error" s = Some (VStr "Invalid email") /\
  persisted (VStr "n6") "retry_count" s = Some (VInt 1) /\
  dlq s = [] /\ outbox s = [].
Proof. vm_compute. repeat split; reflexivity. Qed.



(** ** The scheduler's claim *)




(** ** Back-off *)

(** C5, as stated, fails: the claim has the delay at exactly 3600 seconds
    from a count of 5 on, but [min(30 * 2 ** 5, 3600)] is 960. *)
Lemma retry_delay_five_not_capped :
  ~ (forall k, (5 <= k)%N -> retry_delay k = 3600%N).
Proof. intros H. specialize (H 5%N (N.le_refl _)). vm_compute in H. discriminate. Qed.

(** C5, amended: for every count the delay is [min(30 * 2^count, 3600)]
    seconds, that is 30, 60, 120, 240, 480, 960 and 1920 for counts 0 to 6
    and exactly 3600 from a count of 7 on, and the retry time is the clock
    read plus that delay. *)
Theorem retry_delay_schedule (now k : N) :
  retry_delay k = N.min (30 * 2 ^ k) 3600 /\
  map retry_delay [0; 1; 2; 3; 4; 5; 6]%N = [30; 60; 120; 240; 480; 960; 1920]%N /\
  ((7 <= k)%N -> retry_delay k = 3600%N) /\
  calculate_next_retry_time now k = (now + 1000000 * retry_delay k)%N.
Proof.
  split; [reflexivity|]. split; [reflexivity|]. split.
  - intros Hk. unfold retry_delay.
    assert (2 ^ 7 <= 2 ^ k)%N as Hp by (apply N.pow_le_mono_r; lia).
    change (2 ^ 7)%N with 128%N in Hp. lia.
  - unfold calculate_next_retry_time, timedelta_seconds. lia.
Qed.

Lemma retry_delay_schedule_witness :
  (7 <= 9)%N /\ retry_delay 9 = 3600%N.
Proof.
  split; [lia|].
  destruct (retry_delay_schedule 0 9) as (_ & _ & H & _). apply H. lia.
Defined.

(** ** A notification that always fails *)

(** C6, evaluated where it fails: after that first failed attempt the
    work queue is empty and the record has status [failed].  The
    scheduler only selects status [retry_scheduled], so no sequence of
    scheduler ticks and worker turns, in whatever world, changes the
    state again: the record never reaches [failed_permanently] and no
    dead-letter message is published. *)
Theorem failing_record_stalls_after_first_attempt (turns : list (bool * Env)) :
  run (map background turns) s_failed_once = s_failed_once /\
  persisted (VStr "n1") "status" s_failed_once = Some (VStr "failed") /\
  queue s_failed_once = [] /\ dlq s_failed_once = [].
Proof.
  split; [|vm_compute; auto].
  assert (forall t, run_op (background t) s_failed_once = s_failed_once) as H.
  { intros [[|] env]; vm_compute; reflexivity. }
  induction turns as [|t rest IH]; [reflexivity|].
  change (run (map background rest) (run_op (background t) s_failed_once)
          = s_failed_once).
  rewrite H. exact IH.
Qed.

(** ** Undecodable messages *)

(** C7, as stated, fails: a body that is not JSON is rejected without
    requeue and appears on no queue afterwards. *)
Lemma garbage_is_not_dead_lettered :
  let s := mkState [] [Garbage "{oops"] [] [] in
  callback (world_ok 0) s = (empty_state, Ok (Some Nacked)) /\
  ~ (Garbage "{oops" ∈ dlq (fst (callback (world_ok 0) s))).
Proof.
  split; [reflexivity|]. simpl. apply not_elem_of_nil.
Qed.

(** C7, amended: for a body that cannot be deserialised
    [process_notification] returns [False] and changes nothing, and the
    consumer rejects the message without requeue: it leaves the work
    queue, the dead-letter queue and the collection stay as they were. *)
Theorem undecodable_message_is_nacked env b e st rest dl ob :
  deserialize b = Raise e ->
  process_notification env b (mkState st rest dl ob)
    = (mkState st rest dl ob, Ok false) /\
  callback env (mkState st (b :: rest) dl ob)
    = (mkState st rest dl ob, Ok (Some Nacked)).
Proof.
  intros Hd. split.
  - eapply process_notification_undecodable, Hd.
  - unfold callback. simpl.
    erewrite process_notification_undecodable; eauto.
Qed.

Lemma undecodable_message_is_nacked_witness :
  callback (world_ok 0) (mkState [] [JsonDoc ∅] [] [])
    = (mkState [] [] [] [], Ok (Some Nacked)).
Proof.
  apply (undecodable_message_is_nacked (world_ok 0) (JsonDoc ∅)
           (KeyError "user_id") [] [] [] []).
  reflexivity.
Defined.

(** ** Manual retry *)





(** ** In-app notifications *)

(** C9: a notification of type [in_app], whatever its contact attributes,
    is sent without validation and without a provider call
    ([send_notification] leaves the state, and with it the log of provider
    calls, as it was, and returns [True]); [process_notification] then sets
    status [sent] and [last_error] [None] on the persisted record. *)
Theorem in_app_always_sent env b n s cur :
  deserialize b = Ok n ->
  notification_type n = VStr "in_app" ->
  find_one (id n) (store s) = Some cur ->
  send_notification env n s = (s, Ok (set_status (VStr "sent") n, true)) /\
  let s' := fst (process_notification env b s) in
  snd (process_notification env b s) = Ok true /\
  outbox s' = outbox s /\ queue s' = queue s /\ dlq s' = dlq s /\
  persisted (id n) "status" s' = Some (VStr "sent") /\
  persisted (id n) "last_error" s' = Some VNone.
Proof.
  intros Hd Hty Hf.
  assert (send_notification env n s
          = (s, Ok (set_status (VStr "sent") n, true))) as Hs.
  { apply send_notification_no_channel; rewrite Hty; discriminate. }
  split; [exact Hs|].
  rewrite (process_notification_sent _ _ _ _ _ _ Hd Hs)
    by (right; simpl; rewrite Hf; eauto).
  simpl.
  assert (field_is "id" (id n) (sent_update ∪ cur) = true) as Hid.
  { rewrite field_is_kept; [|reflexivity]. eapply find_one_match, Hf. }
  repeat split; try reflexivity.
  - rewrite (persisted_set_first _ _ _ _ _ _ _ _ Hf Hid).
    apply lookup_written. reflexivity.
  - rewrite (persisted_set_first _ _ _ _ _ _ _ _ Hf Hid).
    apply lookup_written. reflexivity.
Qed.

Lemma in_app_always_sent_witness :
  persisted (VStr "n3") "status"
    (fst (process_notification (world_providers_down 7)
            (JsonDoc (to_dict note_in_app))
            (mkState [to_dict note_in_app] [] [] [])))
  = Some (VStr "sent").
Proof.
  apply (in_app_always_sent (world_providers_down 7)
           (JsonDoc (to_dict note_in_app)) note_in_app
           (mkState [to_dict note_in_app] [] [] []) (to_dict note_in_app));
    reflexivity.
Defined.

(** ** Serialisation *)

(** C10: [from_dict] applied to [to_dict] of a notification gives that
    notification back, equal in all twelve attributes: none of the [KeyError]s
    is raised and no default is taken. *)
Theorem from_dict_to_dict (n : Notification) :
  from_dict (to_dict n) = Ok n.
Proof. destruct n as [i u ty m e p c st le rc mr nrt]. vm_compute. reflexivity. Qed.

(** * Further properties *)

(** ** The matcher and the patterns *)

Lemma nullable_matches r : nullable r = true <-> matches r [].
Proof.
  split.
  - induction r; simpl; intros H; try discriminate.
    + constructor.
    + apply andb_true_iff in H as [H1 H2].
      change (matches (Cat r1 r2) ([] ++ [])). constructor; auto.
    + apply orb_true_iff in H as [H|H];
        [apply matches_alt_l|apply matches_alt_r]; auto.
    + constructor.
  - intros H. remember (@nil N) as s eqn:Hs.
    induction H; simpl; try discriminate; auto.
    + apply app_eq_nil in Hs as [-> ->].
      rewrite IHmatches1, IHmatches2; auto.
    + rewrite IHmatches; auto.
    + rewrite IHmatches; auto. apply orb_true_r.
Qed.

Lemma matches_cat_inv r1 r2 s :
  matches (Cat r1 r2) s ->
  exists s1 s2, s = (s1 ++ s2)%list /\ matches r1 s1 /\ matches r2 s2.
Proof. inversion 1; subst; eauto. Qed.

Lemma matches_star_cons r c s :
  matches (Star r) (c :: s) ->
  exists s1 s2,
    s = (s1 ++ s2)%list /\ matches r (c :: s1) /\ matches (Star r) s2.
Proof.
  intros H. remember (Star r) as r' eqn:Hr. remember (c :: s) as t eqn:Ht.
  revert s Ht. induction H; intros s0 Ht; try discriminate.
  injection Hr as ->.
  destruct s1 as [|c1 s1]; simpl in Ht.
  - apply IHmatches2; auto.
  - injection Ht as -> <-. eauto.
Qed.

Lemma deriv_matches c r s : matches (deriv c r) s <-> matches r (c :: s).
Proof.
  revert s. induction r as [| |p|r1 IH1 r2 IH2|r1 IH1 r2 IH2|r IH];
    intros s; simpl.
  - split; inversion 1.
  - split; inversion 1.
  - destruct (p c) eqn:Hp; split; intros H; inversion H; subst.
    + constructor; auto.
    + constructor.
    + congruence.
  - assert (matches (Cat (deriv c r1) r2) s <->
            exists s1 s2, s = (s1 ++ s2)%list /\ matches r1 (c :: s1) /\
                          matches r2 s2) as Hhead.
    { split.
      - intros (s1 & s2 & -> & H1 & H2)%matches_cat_inv.
        exists s1, s2. rewrite <- IH1. auto.
      - intros (s1 & s2 & -> & H1 & H2). constructor; [apply IH1|]; auto. }
    assert (matches (Cat r1 r2) (c :: s) <->
            (exists s1 s2, s = (s1 ++ s2)%list /\ matches r1 (c :: s1) /\
                           matches r2 s2) \/
            (matches r1 [] /\ matches r2 (c :: s))) as Hcat.
    { split.
      - intros (s1 & s2 & E & H1 & H2)%matches_cat_inv.
        destruct s1 as [|c1 s1]; simpl in E.
        + right. subst. auto.
        + injection E as -> E. left. eauto.
      - intros [(s1 & s2 & -> & H1 & H2)|[H1 H2]].
        + change (matches (Cat r1 r2) ((c :: s1) ++ s2)).
          constructor; auto.
        + change (matches (Cat r1 r2) ([] ++ c :: s)).
          constructor; auto. }
    rewrite Hcat. destruct (nullable r1) eqn:Hn.
    + split.
      * inversion 1; subst; [left; apply Hhead; auto|].
        right. split; [apply nullable_matches, Hn|apply IH2; auto].
      * intros [H|[_ H]];
          [apply matches_alt_l, Hhead, H|apply matches_alt_r, IH2, H].
    + rewrite Hhead. split; [auto|].
      intros [H|[H _]]; [exact H|].
      apply nullable_matches in H. congruence.
  - split; inversion 1; subst.
    + apply matches_alt_l, IH1; auto.
    + apply matches_alt_r, IH2; auto.
    + apply matches_alt_l, IH1; auto.
    + apply matches_alt_r, IH2; auto.
  - split.
    + intros (s1 & s2 & -> & H1 & H2)%matches_cat_inv.
      change (matches (Star r) ((c :: s1) ++ s2)).
      constructor; [apply IH|]; auto.
    + intros (s1 & s2 & -> & H1 & H2)%matches_star_cons.
      constructor; [apply IH|]; auto.
Qed.

Lemma fullmatch_matches r s : fullmatch r s = true <-> matches r s.
Proof.
  revert r. induction s as [|c s IH]; intros r; simpl.
  - apply nullable_matches.
  - rewrite IH. apply deriv_matches.
Qed.

Lemma matches_cat_iff r1 r2 s :
  matches (Cat r1 r2) s <->
  exists s1 s2, s = (s1 ++ s2)%list /\ matches r1 s1 /\ matches r2 s2.
Proof.
  split; [apply matches_cat_inv|].
  intros (s1 & s2 & -> & H1 & H2). constructor; auto.
Qed.

Lemma matches_alt_iff r1 r2 s :
  matches (Alt r1 r2) s <-> matches r1 s \/ matches r2 s.
Proof.
  split; [inversion 1; auto|].
  intros [H|H]; [apply matches_alt_l|apply matches_alt_r]; auto.
Qed.

Lemma matches_eps_iff s : matches Eps s <-> s = [].
Proof. split; [inversion 1; auto|intros ->; constructor]. Qed.

Lemma matches_class_iff p s :
  matches (Class p) s <-> exists c, s = [c] /\ p c = true.
Proof.
  split; [inversion 1; eauto|]. intros (c & -> & H). constructor; auto.
Qed.

Lemma matches_chr_iff a s : matches (chr a) s <-> s = [ord a].
Proof.
  unfold chr. rewrite matches_class_iff. split.
  - intros (c & -> & H). apply N.eqb_eq in H. congruence.
  - intros ->. exists (ord a). split; [reflexivity|apply N.eqb_refl].
Qed.

Lemma matches_opt_iff r s : matches (opt r) s <-> s = [] \/ matches r s.
Proof. unfold opt. rewrite matches_alt_iff, matches_eps_iff. reflexivity. Qed.

Lemma matches_dollar_iff s : matches dollar s <-> line_end s.
Proof. unfold dollar. rewrite matches_opt_iff, matches_chr_iff. reflexivity. Qed.

Lemma matches_star_class p s :
  matches (Star (Class p)) s <-> forallb p s = true.
Proof.
  split.
  - intros H. remember (Star (Class p)) as r eqn:Hr.
    induction H; try discriminate; [reflexivity|].
    injection Hr as ->. apply matches_class_iff in H as (c & -> & Hc).
    simpl. rewrite Hc. auto.
  - induction s as [|c s IH]; simpl; intros H; [constructor|].
    apply andb_true_iff in H as [Hc Hs].
    change (matches (Star (Class p)) ([c] ++ s)).
    constructor; [constructor|]; auto.
Qed.

Lemma matches_plus_class p s :
  matches (plus (Class p)) s <-> s <> [] /\ forallb p s = true.
Proof.
  unfold plus. rewrite matches_cat_iff. split.
  - intros (s1 & s2 & -> & (c & -> & Hc)%matches_class_iff
            & H2%matches_star_class).
    simpl. rewrite Hc, H2. split; [discriminate|reflexivity].
  - intros [Hne H]. destruct s as [|c s]; [contradiction|]. simpl in H.
    apply andb_true_iff in H as [Hc Hs].
    exists [c], s. split; [reflexivity|].
    split; [constructor; auto|apply matches_star_class; auto].
Qed.

Lemma matches_times_class k p s :
  matches (times k (Class p)) s <-> length s = k /\ forallb p s = true.
Proof.
  revert s. induction k as [|k IH]; intros s; simpl.
  - rewrite matches_eps_iff. split.
    + intros ->. auto.
    + intros [H _]. destruct s; [reflexivity|discriminate].
  - rewrite matches_cat_iff. split.
    + intros (s1 & s2 & -> & (c & -> & Hc)%matches_class_iff & [Hl Ha]%IH).
      simpl. rewrite Hc, Ha, Hl. auto.
    + intros [Hl Ha]. destruct s as [|c s]; [discriminate|].
      simpl in Hl, Ha. apply andb_true_iff in Ha as [Hc Hs].
      exists [c], s. split; [reflexivity|].
      split; [constructor; auto|apply IH; split; [lia|auto]].
Qed.

Lemma matches_upto_class m p s :
  matches (upto m (Class p)) s <-> length s <= m /\ forallb p s = true.
Proof.
  revert s. induction m as [|m IH]; intros s; simpl.
  - rewrite matches_eps_iff. split.
    + intros ->. simpl. auto.
    + intros [H _]. destruct s; [reflexivity|simpl in H; lia].
  - rewrite matches_opt_iff, matches_cat_iff. split.
    + intros [->|(s1 & s2 & -> & (c & -> & Hc)%matches_class_iff
                  & [Hl Ha]%IH)].
      * simpl. split; [lia|reflexivity].
      * simpl. rewrite Hc, Ha. split; [lia|reflexivity].
    + intros [Hl Ha]. destruct s as [|c s]; [left; reflexivity|right].
      simpl in Hl, Ha. apply andb_true_iff in Ha as [Hc Hs].
      exists [c], s. split; [reflexivity|].
      split; [constructor; auto|apply IH; split; [lia|auto]].
Qed.

Lemma split_at n (s : list N) :
  n <= length s ->
  exists s1 s2, s = (s1 ++ s2)%list /\ length s1 = n.
Proof.
  revert s. induction n as [|n IH]; intros s H.
  - exists [], s. auto.
  - destruct s as [|c s]; simpl in H; [lia|].
    destruct (IH s) as (s1 & s2 & -> & Hl); [lia|].
    exists (c :: s1), s2. simpl. auto.
Qed.

Lemma validate_with_str pattern s :
  validate_with pattern (VStr s) = Ok true <->
  s <> EmptyString /\ matches (Cat pattern dollar) (code_points s).
Proof.
  unfold validate_with, re_match. simpl.
  destruct (String.eqb_spec s EmptyString) as [->|Hne]; simpl.
  - split; [discriminate|]. intros [H _]. contradiction.
  - rewrite <- fullmatch_matches. split.
    + intros [= ->]. auto.
    + intros [_ ->]. reflexivity.
Qed.

Lemma code_points_nonempty s : code_points s <> [] -> s <> EmptyString.
Proof. intros H ->. apply H. reflexivity. Qed.

(** X1: [validate_phone] accepts exactly the strings made of a plus sign
    and ten to fifteen decimal digits (the ASCII digits and, beyond ASCII,
    those of the interpreter's tables), alone or followed by one
    newline. *)
Theorem validate_phone_accepts u s :
  validate_phone u (VStr s) = Ok true <->
  exists ds nl,
    code_points s = (ord "+" :: ds ++ nl)%list /\
    forallb (is_digit u) ds = true /\
    10 <= length ds <= 15 /\ line_end nl.
Proof.
  unfold validate_phone. rewrite validate_with_str. unfold phone_pattern.
  split.
  - intros [_ H]. remember (code_points s) as l eqn:El. clear El.
    apply matches_cat_iff in H as (a & nl & -> & Ha & Hnl%matches_dollar_iff).
    apply matches_cat_iff in Ha as (x & b & -> & ->%matches_chr_iff & Hb).
    apply matches_cat_iff in Hb
      as (b1 & b2 & -> & [L1 A1]%matches_times_class
          & [L2 A2]%matches_upto_class).
    exists (b1 ++ b2)%list, nl.
    split; [reflexivity|]. rewrite forallb_app, A1, A2, length_app.
    split; [reflexivity|]. split; [lia|exact Hnl].
  - intros (ds & nl & E & Ha & [Hlo Hhi] & Hnl).
    split; [apply code_points_nonempty; rewrite E; discriminate|].
    rewrite E. clear E.
    destruct (split_at 10 ds Hlo) as (b1 & b2 & -> & L1).
    rewrite forallb_app in Ha. apply andb_true_iff in Ha as [A1 A2].
    rewrite length_app in Hhi.
    apply matches_cat_iff.
    exists (ord "+" :: b1 ++ b2)%list, nl. split; [reflexivity|].
    split; [|apply matches_dollar_iff, Hnl].
    apply matches_cat_iff. exists [ord "+"], (b1 ++ b2)%list.
    split; [reflexivity|].
    split; [apply matches_chr_iff; reflexivity|].
    apply matches_cat_iff. exists b1, b2. split; [reflexivity|].
    split; [apply matches_times_class|apply matches_upto_class];
      split; auto; lia.
Qed.

(** X2: [validate_email] accepts exactly the strings [local@domain.tld],
    alone or followed by one newline, where [local] and [domain] are
    non-empty runs of word characters, dots and hyphens and [tld] is a
    non-empty run of word characters; a word character is an ASCII letter
    or digit, the underscore or, beyond ASCII, an alphanumeric character
    of the interpreter's tables. *)
Theorem validate_email_accepts u s :
  validate_email u (VStr s) = Ok true <->
  exists l d t nl,
    code_points s = (l ++ [ord "@"] ++ d ++ [ord "."] ++ t ++ nl)%list /\
    l <> [] /\ forallb (is_local u) l = true /\
    d <> [] /\ forallb (is_local u) d = true /\
    t <> [] /\ forallb (is_word u) t = true /\
    line_end nl.
Proof.
  unfold validate_email. rewrite validate_with_str. unfold email_pattern.
  split.
  - intros [_ H]. remember (code_points s) as cs eqn:El. clear El.
    apply matches_cat_iff in H as (a & nl & -> & Ha & Hnl%matches_dollar_iff).
    apply matches_cat_iff in Ha as (l & a1 & -> & [Hl Al]%matches_plus_class & Ha).
    apply matches_cat_iff in Ha as (x & a2 & -> & ->%matches_chr_iff & Ha).
    apply matches_cat_iff in Ha as (d & a3 & -> & [Hd Ad]%matches_plus_class & Ha).
    apply matches_cat_iff in Ha
      as (y & t & -> & ->%matches_chr_iff & [Ht At]%matches_plus_class).
    exists l, d, t, nl. rewrite <- !app_assoc. auto 10.
  - intros (l & d & t & nl & E & Hl & Al & Hd & Ad & Ht & At & Hnl).
    split.
    { apply code_points_nonempty. rewrite E.
      destruct l; [contradiction|discriminate]. }
    rewrite E. clear E.
    replace (l ++ [ord "@"] ++ d ++ [ord "."] ++ t ++ nl)%list
      with ((l ++ [ord "@"] ++ d ++ [ord "."] ++ t) ++ nl)%list
      by (rewrite <- !app_assoc; reflexivity).
    apply matches_cat_iff. eexists _, nl. split; [reflexivity|].
    split; [|apply matches_dollar_iff, Hnl].
    apply matches_cat_iff. exists l, ([ord "@"] ++ d ++ [ord "."] ++ t)%list.
    split; [reflexivity|]. split; [apply matches_plus_class; auto|].
    apply matches_cat_iff. exists [ord "@"], (d ++ [ord "."] ++ t)%list.
    split; [reflexivity|]. split; [apply matches_chr_iff; reflexivity|].
    apply matches_cat_iff. exists d, ([ord "."] ++ t)%list.
    split; [reflexivity|]. split; [apply matches_plus_class; auto|].
    apply matches_cat_iff. exists [ord "."], t.
    split; [reflexivity|]. split; [apply matches_chr_iff; reflexivity|].
    apply matches_plus_class; auto.
Qed.

(** ** Ids *)

(** X3: the worker, the scheduler and manual retry never add, remove,
    reorder or re-identify a persisted record; intake leaves the ids as
    they are or appends exactly the id it drew. *)
Theorem ids_change_only_at_intake o s :
  match o with
  | Intake _ fresh _ =>
      map idof (store (run_op o s)) = map idof (store s) \/
      map idof (store (run_op o s)) = (map idof (store s) ++ [VStr fresh])%list
  | _ => map idof (store (run_op o s)) = map idof (store s)
  end.
Proof.
  pose proof (run_op_updated o s) as H.
  destruct o as [env fresh data|env|env|env i];
    try (apply updated_ids, H).
  simpl.
  destruct (send_notification_api_store env fresh data s)
    as [->|(uid & ty & msg & em & ph & _ & ->)]; [left; reflexivity|right].
  rewrite map_app. reflexivity.
Qed.

(** X4: as long as every intake draws an id that is not yet stored, no
    two persisted records share an id. *)
Theorem unique_ids_preserved o s :
  NoDup (map idof (store s)) -> fresh_for o s ->
  NoDup (map idof (store (run_op o s))).
Proof.
  intros Hn Hf. pose proof (run_op_updated o s) as H.
  destruct o as [env fresh data|env|env|env i];
    try (rewrite (updated_ids _ _ H); exact Hn).
  simpl in *.
  destruct (send_notification_api_store env fresh data s)
    as [->|(uid & ty & msg & em & ph & _ & ->)]; [exact Hn|].
  rewrite map_app. apply NoDup_app. split; [exact Hn|].
  split; [|apply NoDup_singleton].
  intros x Hx Hx'. apply list_elem_of_singleton in Hx'. subst x.
  contradiction.
Qed.

Lemma unique_ids_preserved_witness :
  NoDup (map idof (store (run_op (Intake (world_ok 0) "n1" request_email)
                            empty_state))).
Proof.
  apply (unique_ids_preserved (Intake (world_ok 0) "n1" request_email)
           empty_state).
  - apply NoDup_nil_2.
  - apply not_elem_of_nil.
Defined.

(** X5: in every state the operations can reach from the empty one, each
    record has one of the statuses pending, sent, failed,
    failed_permanently and retrying, never [retry_scheduled]; the query of
    the scheduler therefore selects nothing and a tick changes nothing. *)
Theorem scheduler_idle_on_reachable env s :
  reachable s ->
  Forall known_status (store s) /\
  List.filter (due (utcnow env)) (store s) = [] /\
  process_scheduled_retries env s = (s, Ok tt).
Proof.
  intros Hr. pose proof (reachable_known_status s Hr) as Hk.
  split; [exact Hk|]. split; [apply known_status_not_due, Hk|].
  apply reachable_tick, Hr.
Qed.

Lemma scheduler_idle_on_reachable_witness :
  process_scheduled_retries (world_ok 99000000) s_queued = (s_queued, Ok tt).
Proof.
  apply (scheduler_idle_on_reachable (world_ok 99000000) s_queued).
  exists [Intake (world_ok 0) "n1" request_email]. reflexivity.
Defined.

(** ** Reading a notification from a dict *)

Lemma complete_iff d :
  complete d <->
  is_Some (d !! "user_id") /\ is_Some (d !! "notification_type") /\
  is_Some (d !! "message") /\ is_Some (d !! "id") /\
  is_Some (d !! "created_at") /\ is_Some (d !! "status").
Proof. unfold complete. rewrite !Forall_cons. intuition. Qed.

(** X6: [from_dict] succeeds exactly on the dicts that have the six keys
    it indexes ([user_id], [notification_type], [message], [id],
    [created_at], [status]); on any other dict it raises the [KeyError] of
    one of these keys, which the dict lacks. *)
Theorem from_dict_needs_six_keys d :
  (complete d <-> exists n, from_dict d = Ok n) /\
  (forall e, from_dict d = Raise e ->
     exists k, e = KeyError k /\ k ∈ required_keys /\ d !! k = None).
Proof.
  split; [split|].
  - apply complete_from_dict.
  - intros [n H]. apply complete_iff.
    unfold from_dict, getitem, exc_bind in H.
    repeat (case_match; try discriminate). repeat split; eauto.
  - intros e H. unfold from_dict, getitem, exc_bind in H.
    repeat (case_match; try discriminate);
      injection H as <-; simplify_eq;
      eexists; (split; [reflexivity|]); (split; [in_list|assumption]).
Qed.

(** X7: [from_dict] keeps every attribute the dict holds and looks at no
    other key: the attributes of the result are the dict's values under
    the twelve attribute names, and adding or changing any other key (such
    as MongoDB's [_id]) does not change the result. *)
Theorem from_dict_reads_attributes d :
  (forall n k v,
     from_dict d = Ok n -> k ∈ attribute_names -> d !! k = Some v ->
     to_dict n !! k = Some v) /\
  (forall k v, k ∉ attribute_names -> from_dict (<[k := v]> d) = from_dict d).
Proof.
  split.
  - intros n k v H Hk Hv.
    destruct (from_dict_fields d n H)
      as (F1 & F2 & F3 & F4 & F5 & F6 & F7 & F8 & F9 & F10 & F11 & F12).
    destruct (to_dict_lookups n)
      as (L1 & L2 & L3 & L4 & L5 & L6 & L7 & L8 & L9 & L10 & L11 & L12).
    unfold get in *.
    apply list_elem_of_In in Hk. simpl in Hk.
    repeat (destruct Hk as [<-|Hk]; [rewrite Hv in *; simpl in *; congruence|]).
    contradiction.
  - intros k v Hk. unfold from_dict, getitem, get.
    assert (forall a, a ∈ attribute_names -> <[k := v]> d !! a = d !! a) as E.
    { intros a Ha. apply lookup_insert_ne. intros ->. contradiction. }
    rewrite !E by in_list. reflexivity.
Qed.

Lemma from_dict_reads_attributes_witness :
  from_dict (<["_id" := VStr "65f0"]> (to_dict note_in_app))
  = from_dict (to_dict note_in_app).
Proof.
  apply (from_dict_reads_attributes (to_dict note_in_app)).
  intros H. apply list_elem_of_In in H. simpl in H.
  repeat (destruct H as [H|H]; [discriminate H|]). exact H.
Defined.

(** X8: a notification that goes through the queue
    ([json.dumps(n.to_dict(), default=str)], then [json.loads] and
    [from_dict]) comes back with all twelve attributes, each [datetime]
    replaced by its text and everything else unchanged; without a
    [datetime] among its attributes it comes back as it was. *)
Theorem queue_round_trip env n :
  deserialize (json_dumps env (to_dict n)) = Ok (json_view env n) /\
  (Forall (fun v => forall t, v <> VTime t)
     [id n; user_id n; notification_type n; message n; email n; phone n;
      created_at n; status n; last_error n; retry_count n; max_retries n;
      next_retry_time n] ->
   deserialize (json_dumps env (to_dict n)) = Ok n).
Proof.
  pose proof (deserialize_dumps env n) as E.
  split; [exact E|]. intros H. rewrite E. f_equal.
  assert (forall v, (forall t, v <> VTime t) -> json_default env v = v) as J.
  { intros [| | |t] Hv; try reflexivity. destruct (Hv t). reflexivity. }
  rewrite !Forall_cons in H.
  destruct H as (H1 & H2 & H3 & H4 & H5 & H6 & H7 & H8 & H9 & H10 & H11 & H12 & _).
  destruct n. unfold json_view. simpl in *.
  rewrite !J by assumption. reflexivity.
Qed.

Lemma queue_round_trip_witness :
  deserialize (json_dumps (world_ok 0) (to_dict note_in_app)) = Ok note_in_app.
Proof.
  apply (queue_round_trip (world_ok 0) note_in_app).
  repeat constructor; discriminate.
Defined.

(** ** Intake *)

(** X9: on a request body that is a JSON object, the JSON intake has
    four outcomes.  A body that lacks one of [user_id], [notification_type],
    [message], or whose type is not [email], [sms] or [in_app], is answered
    with a client error and has no effect.  A body with a value that BSON
    cannot hold makes the insertion raise [OverflowError], which leaves the
    handler with nothing stored and nothing queued.  Any other body
    appends one record that carries the attributes of the notification
    constructed (status pending, retry count 0, five retries, no retry
    time, the id drawn); with the broker reachable one message is put on
    the work queue, which deserialises to that notification with its
    creation time as text, and the answer carries the id; with the broker
    unreachable the record stays persisted, nothing is queued and the
    answer is a server error. *)
Theorem intake_outcome env fresh data s :
  let n := new_notification env fresh data in
  let s' := fst (send_notification_api env fresh data s) in
  let r := snd (send_notification_api env fresh data s) in
  if admitted data then
    if encodable (to_dict n) then
      (exists doc,
         store s' = (store s ++ [doc])%list /\
         forall key, key ∈ attribute_names -> key <> "created_at" ->
           doc !! key = to_dict n !! key) /\
      dlq s' = dlq s /\ outbox s' = outbox s /\
      status n = VStr "pending" /\ retry_count n = VInt 0 /\
      max_retries n = VInt 5 /\ next_retry_time n = VNone /\
      id n = VStr fresh /\
      if broker_up env then
        (exists msg,
           queue s' = (queue s ++ [msg])%list /\
           deserialize msg = Ok (json_view env n)) /\
        r = Ok (Created (VStr fresh))
      else queue s' = queue s /\ r = Ok (ServerError "Queueing failed")
    else s' = s /\ exists e, r = Raise (OverflowError e)
  else s' = s /\ exists msg, r = Ok (BadRequest msg).
Proof.
  cbv zeta. destruct (admitted data) eqn:E.
  - rewrite (send_notification_api_cases _ _ _ _ E). cbv zeta.
    destruct (encodable _); [|simpl; eauto].
    destruct (broker_up env); simpl; repeat split; eauto;
      eexists; (split; [reflexivity|]); auto using deserialize_dumps.
  - destruct (send_notification_api_refused env fresh data s E) as [msg ->].
    simpl. eauto.
Qed.

(** ** The form handler against the JSON intake *)







(** ** The worker *)

(** X11: whatever the message and the world, the consumer takes exactly
    the head message off the work queue and puts nothing back; the
    attempt never raises, keeps the number of persisted records, publishes
    at most one dead-letter message and makes at most one provider call. *)
Theorem callback_consumes_head env s :
  let s' := fst (callback env s) in
  queue s' = tl (queue s) /\
  length (store s') = length (store s) /\
  (dlq s' = dlq s \/ exists m, dlq s' = (dlq s ++ [m])%list) /\
  (outbox s' = outbox s \/ exists c, outbox s' = (outbox s ++ [c])%list) /\
  exists r, snd (callback env s) = Ok r.
Proof.
  cbv zeta. split; [|split].
  - unfold callback. destruct (queue s) as [|b rest] eqn:E; [exact E|].
    cbv zeta. simpl.
    match goal with
    | |- context [process_notification ?e ?x ?y] =>
        pose proof (process_notification_frame e x y) as F;
        cbv zeta in F; destruct F as (Hq & _);
        destruct (process_notification e x y) as [s2 [[|]|]]
    end; exact Hq.
  - apply updated_length, callback_updated.
  - unfold callback. destruct (queue s) as [|b rest] eqn:E;
      [simpl; repeat split; eauto|].
    cbv zeta.
    match goal with
    | |- context [process_notification ?e ?x ?y] =>
        pose proof (process_notification_frame e x y) as F;
        cbv zeta in F; destruct F as (_ & Hd & Ho & _);
        destruct (process_notification e x y) as [s2 [[|]|]]
    end; simpl in *; eauto.
Qed.

Lemma sent_update_other key :
  key <> "status" -> key <> "last_error" -> sent_update !! key = None.
Proof.
  intros H1 H2. unfold sent_update.
  rewrite !lookup_insert_ne by congruence. apply lookup_empty.
Qed.

(** X12: when the contact passes validation and the provider accepts the
    call, the attempt makes exactly that one call, is acknowledged, and
    sets status [sent] and [last_error] [None] on the persisted record;
    every other field of the record, the retry count and the retry time
    among them, stays as it was stored, and nothing is published. *)
Theorem delivered_attempt env b n s c cur :
  deserialize b = Ok n ->
  provider_call env n = Some (c, None) ->
  find_one (id n) (store s) = Some cur ->
  let s' := fst (process_notification env b s) in
  snd (process_notification env b s) = Ok true /\
  outbox s' = (outbox s ++ [c])%list /\
  queue s' = queue s /\ dlq s' = dlq s /\
  persisted (id n) "status" s' = Some (VStr "sent") /\
  persisted (id n) "last_error" s' = Some VNone /\
  forall key, key <> "status" -> key <> "last_error" ->
    persisted (id n) key s' = cur !! key.
Proof.
  intros Hd Hc Hf. cbv zeta.
  pose proof (send_notification_provider env n s c None Hc) as Hs.
  rewrite (process_notification_sent _ _ _ _ _ _ Hd Hs)
    by (right; simpl; rewrite Hf; eauto).
  simpl.
  assert (field_is "id" (id n) (sent_update ∪ cur) = true) as Hid.
  { rewrite field_is_kept; [|reflexivity]. eapply find_one_match, Hf. }
  repeat split; try reflexivity;
    try (rewrite (persisted_set_first _ _ _ _ _ _ _ _ Hf Hid);
         apply lookup_written; reflexivity).
  intros key H1 H2.
  rewrite (persisted_set_first _ _ _ _ _ _ _ _ Hf Hid).
  apply lookup_kept, sent_update_other; assumption.
Qed.

Lemma note_valid_email_call env :
  provider_call env note_valid_email
  = Some (MailSend (VStr "user@example.com") (VStr "hi"),
          mail_send env (VStr "user@example.com") (VStr "hi")).
Proof. reflexivity. Qed.

Lemma delivered_attempt_witness :
  persisted (VStr "n8") "status"
    (fst (process_notification (world_ok 7)
            (JsonDoc (to_dict note_valid_email))
            (mkState [to_dict note_valid_email] [] [] [])))
  = Some (VStr "sent").
Proof.
  apply (delivered_attempt (world_ok 7) (JsonDoc (to_dict note_valid_email))
           note_valid_email (mkState [to_dict note_valid_email] [] [] [])
           (MailSend (VStr "user@example.com") (VStr "hi"))
           (to_dict note_valid_email));
    [reflexivity|exact (note_valid_email_call (world_ok 7))|reflexivity].
Defined.

(** A failed attempt on integer counts that BSON holds always writes the
    record, in one of two forms. *)
Lemma failed_attempt_store env b n s s1 n1 k m :
  deserialize b = Ok n ->
  send_notification env n s = (s1, Ok (n1, false)) ->
  retry_count n = VInt k -> max_retries n = VInt m ->
  encodable (to_dict n) = true -> (k + 1 < 2 ^ 63)%N ->
  exists e,
    n1 = set_last_error (VStr e) (set_status (VStr "failed") n) /\
    process_notification env b s =
      if (m <=? k + 1)%N then
        let n2 := set_status (VStr "failed_permanently") (after_failure e k n) in
        let st := set_first (id n) (to_dict n2) (store s) in
        if broker_up env then
          (mkState st (queue s) (dlq s ++ [json_dumps env (to_dict n2)])
             (outbox s1), Ok true)
        else (mkState st (queue s) (dlq s) (outbox s1), Ok false)
      else
        let n2 := set_next_retry_time
                    (VTime (to_millis
                              (calculate_next_retry_time (utcnow env) (k + 1))))
                    (after_failure e k n) in
        (mkState (set_first (id n) (to_dict n2) (store s)) (queue s) (dlq s)
           (outbox s1), Ok true).
Proof.
  intros Hd Hs Hk Hm He Hb.
  destruct (send_notification_failed _ _ _ _ _ Hs)
    as (Hst & Hq & Hdl & e & ->).
  exists e. split; [reflexivity|].
  rewrite (process_notification_failed _ _ _ _ _ _ _ _ Hd Hs Hk Hm He Hb).
  cbv zeta. rewrite Hst, Hq, Hdl. reflexivity.
Qed.

(** X13: a failed attempt whose new retry count reaches [max_retries]
    (also on the very first attempt when [max_retries] is 0 or 1) sets the
    record to [failed_permanently] with the new count, provided the
    attributes of the message and the new count are values that BSON
    holds.  With the broker reachable it
    publishes one dead-letter message, which deserialises to that final
    record, and is acknowledged; with the broker unreachable the record is
    [failed_permanently] all the same, no dead-letter message exists and
    the work message is rejected. *)
Theorem exhausted_attempt env b n s s1 n1 k m cur :
  deserialize b = Ok n ->
  send_notification env n s = (s1, Ok (n1, false)) ->
  retry_count n = VInt k -> max_retries n = VInt m -> (m <= k + 1)%N ->
  encodable (to_dict n) = true -> (k + 1 < 2 ^ 63)%N ->
  find_one (id n) (store s) = Some cur ->
  let s' := fst (process_notification env b s) in
  let r := snd (process_notification env b s) in
  persisted (id n) "status" s' = Some (VStr "failed_permanently") /\
  persisted (id n) "retry_count" s' = Some (VInt (k + 1)) /\
  queue s' = queue s /\
  if broker_up env then
    r = Ok true /\
    exists dead n',
      dlq s' = (dlq s ++ [dead])%list /\ deserialize dead = Ok n' /\
      status n' = VStr "failed_permanently" /\
      retry_count n' = VInt (k + 1) /\ id n' = json_default env (id n)
  else r = Ok false /\ dlq s' = dlq s.
Proof.
  intros Hd Hs Hk Hm Hle He Hb Hf. cbv zeta.
  destruct (failed_attempt_store _ _ _ _ _ _ _ _ Hd Hs Hk Hm He Hb)
    as (e & _ & ->).
  replace (m <=? k + 1)%N with true by (symmetry; apply N.leb_le, Hle).
  cbv zeta. set (n2 := set_status _ _).
  assert (field_is "id" (id n) (to_dict n2 ∪ cur) = true) as Hid
    by (apply field_is_written; rewrite to_dict_id; reflexivity).
  destruct (broker_up env); cbn [fst snd queue dlq];
    rewrite !(persisted_set_first _ _ _ _ _ _ _ _ Hf Hid);
    repeat split; try (apply lookup_written; destruct n; reflexivity).
  exists (json_dumps env (to_dict n2)), (json_view env n2).
  split; [reflexivity|]. split; [apply deserialize_dumps|].
  destruct n; repeat split; reflexivity.
Qed.

Lemma exhausted_attempt_witness :
  persisted (VStr "n5") "retry_count"
    (fst (process_notification (world_broker_down 7)
            (JsonDoc (to_dict note_last_try))
            (mkState [to_dict note_last_try] [] [] [])))
  = Some (VInt (4 + 1)).
Proof.
  apply (exhausted_attempt (world_broker_down 7)
           (JsonDoc (to_dict note_last_try)) note_last_try
           (mkState [to_dict note_last_try] [] [] [])
           (mkState [to_dict note_last_try] [] [] [])
           (set_last_error (VStr "Invalid email")
              (set_status (VStr "failed") note_last_try))
           4 5 (to_dict note_last_try)); reflexivity.
Defined.





(** ** Back-off bounds *)

(** X16: the delay is never below 30 seconds nor above 3600, and it never
    decreases as the retry count grows. *)
Theorem retry_delay_bounds (j k : N) :
  (j <= k)%N ->
  (30 <= retry_delay j)%N /\ (retry_delay j <= retry_delay k)%N /\
  (retry_delay k <= 3600)%N.
Proof.
  intros Hjk. unfold retry_delay.
  assert (1 <= 2 ^ j)%N as H1.
  { change 1%N with (2 ^ 0)%N. apply N.pow_le_mono_r; lia. }
  assert (2 ^ j <= 2 ^ k)%N as H2 by (apply N.pow_le_mono_r; lia).
  lia.
Qed.

Lemma retry_delay_bounds_witness :
  (30 <= retry_delay 2)%N /\ (retry_delay 2 <= retry_delay 9)%N /\
  (retry_delay 9 <= 3600)%N.
Proof. apply (retry_delay_bounds 2 9). lia. Defined.

(** ** Quiescence *)

(** X17: in a reachable state whose work queue is empty, worker turns and
    scheduler ticks, in any number and any world, change nothing: only an
    intake or a manual retry puts a message on the queue again. *)
Theorem quiescent_once_queue_empty s (turns : list (bool * Env)) :
  reachable s -> queue s = [] ->
  run (map background turns) s = s.
Proof.
  intros Hr Hq. induction turns as [|[[|] env] rest IH]; [reflexivity| |].
  - change (run (map background rest) (run_op (Deliver env) s) = s).
    replace (run_op (Deliver env) s) with s; [exact IH|].
    simpl. unfold callback. rewrite Hq. reflexivity.
  - change (run (map background rest) (run_op (Schedule env) s) = s).
    replace (run_op (Schedule env) s) with s; [exact IH|].
    simpl. rewrite (reachable_tick env s Hr). reflexivity.
Qed.

Lemma quiescent_once_queue_empty_witness :
  run (map background [(true, world_ok 1); (false, world_ok 99000000)])
    s_failed_once = s_failed_once.
Proof.
  apply (quiescent_once_queue_empty s_failed_once
           [(true, world_ok 1); (false, world_ok 99000000)]
           s_failed_once_reachable).
  reflexivity.
Defined.

(** ** A tick over a collection that holds due records *)

Lemma field_is_idof i (d : dict) : field_is "id" i d = bool_decide (idof d = i).
Proof. reflexivity. Qed.

Lemma set_first_unique i upd st :
  NoDup (map idof st) ->
  set_first i upd st
    = map (fun x => if field_is "id" i x then upd ∪ x else x) st.
Proof.
  induction st as [|d rest IH]; simpl; [reflexivity|].
  intros Hn. apply NoDup_cons in Hn as [Hd Hrest].
  destruct (field_is "id" i d) eqn:E.
  - f_equal. symmetry. erewrite List.map_ext_in; [apply List.map_id|].
    intros x Hx. simpl.
    rewrite field_is_idof in E. apply bool_decide_eq_true in E.
    rewrite field_is_idof.
    rewrite bool_decide_eq_false_2; [reflexivity|].
    intros Hxi. apply Hd. rewrite E, <- Hxi.
    apply list_elem_of_In, in_map, Hx.
  - rewrite IH by exact Hrest. reflexivity.
Qed.

Lemma idof_retrying (d : dict) : idof (retrying_update ∪ d) = idof d.
Proof. unfold idof, get. rewrite lookup_union_r; reflexivity. Qed.

Lemma retrying_twice (d : dict) :
  retrying_update ∪ (retrying_update ∪ d) = retrying_update ∪ d.
Proof.
  rewrite (assoc_L (∪)). rewrite (idemp_L (∪)). reflexivity.
Qed.

Lemma claims_fold ds st :
  NoDup (map idof st) ->
  fold_left (fun st d => set_first (idof d) retrying_update st) ds st
    = map (fun x => if bool_decide (idof x ∈ map idof ds)
                    then retrying_update ∪ x else x) st.
Proof.
  revert st. induction ds as [|d ds IH]; intros st Hn; simpl.
  - erewrite List.map_ext_in; [symmetry; apply List.map_id|].
    intros x _. reflexivity.
  - rewrite IH.
    2:{ rewrite set_first_ids; [exact Hn|left; reflexivity]. }
    rewrite (set_first_unique _ _ _ Hn), List.map_map.
    apply List.map_ext_in. intros x _. rewrite field_is_idof.
    destruct (decide (idof x = idof d)) as [E|E].
    + rewrite (bool_decide_eq_true_2 _ E).
      rewrite idof_retrying, retrying_twice.
      rewrite (bool_decide_eq_true_2 (idof x ∈ idof d :: map idof ds));
        [|rewrite E; apply list_elem_of_here].
      destruct (bool_decide (idof x ∈ map idof ds)); reflexivity.
    + rewrite (bool_decide_eq_false_2 _ E).
      destruct (decide (idof x ∈ map idof ds)) as [Hin|Hin].
      * rewrite !bool_decide_eq_true_2; auto.
        apply list_elem_of_further, Hin.
      * rewrite !bool_decide_eq_false_2; auto.
        intros [?|?]%elem_of_cons; contradiction.
Qed.

Lemma find_one_by_id i st : i ∈ map idof st -> is_Some (find_one i st).
Proof.
  intros Hin. apply list_elem_of_In, in_map_iff in Hin as (d & <- & Hd).
  apply find_one_present, list_elem_of_In, Hd.
Qed.

(** The documents a cursor yields are in the collection: each claim finds
    its record. *)
Lemma for_each_claim_up env ds s :
  Forall complete ds -> Forall (fun d => idof d ∈ map idof (store s)) ds ->
  broker_up env = true ->
  exists msgs,
    length msgs = length ds /\
    for_each (claim env) ds s =
      (mkState
         (fold_left (fun st d => set_first (idof d) retrying_update st) ds
            (store s))
         (queue s ++ msgs) (dlq s) (outbox s), Ok tt).
Proof.
  intros Hc Hin Hup. revert s Hin.
  induction Hc as [|d ds Hd _ IH]; intros s Hin.
  - exists []. split; [reflexivity|]. simpl. unfold ret.
    rewrite app_nil_r. destruct s; reflexivity.
  - apply Forall_cons in Hin as [Hin1 Hin].
    destruct (complete_from_dict d Hd) as [n Hn].
    assert (idof d = id n) as Hi.
    { unfold idof, get. rewrite (from_dict_id _ _ Hn). reflexivity. }
    simpl. unfold bind at 1.
    rewrite (claim_found _ _ _ _ Hn)
      by (right; rewrite <- Hi; apply find_one_by_id, Hin1).
    rewrite Hup. cbv zeta.
    destruct (IH (mkState (set_first (id n) retrying_update (store s))
                    (queue s ++ [json_dumps env (to_dict n)]) (dlq s)
                    (outbox s))) as (msgs & Hl & ->).
    { simpl. rewrite set_first_ids; [exact Hin|left; reflexivity]. }
    exists (json_dumps env (to_dict n) :: msgs).
    split; [simpl; rewrite Hl; reflexivity|]. simpl.
    rewrite Hi, <- app_assoc. reflexivity.
Qed.

Lemma unique_by_id (x y : dict) st :
  NoDup (map idof st) -> x ∈ st -> y ∈ st -> idof x = idof y -> x = y.
Proof.
  induction st as [|d rest IH]; simpl; intros Hn Hx Hy E.
  - apply elem_of_nil in Hx. contradiction.
  - apply NoDup_cons in Hn as [Hd Hrest].
    apply elem_of_cons in Hx as [->|Hx];
      apply elem_of_cons in Hy as [->|Hy]; auto.
    + exfalso. apply Hd. rewrite E. apply list_elem_of_In, in_map.
      apply list_elem_of_In, Hy.
    + exfalso. apply Hd. rewrite <- E. apply list_elem_of_In, in_map.
      apply list_elem_of_In, Hx.
Qed.

Lemma claimed_not_due now (d : dict) : due now (claimed_if_due now d) = false.
Proof.
  unfold claimed_if_due. destruct (due now d) eqn:E; [|exact E].
  unfold due, field_is, get. rewrite lookup_insert_eq. reflexivity.
Qed.

Lemma nothing_due_after_claims now st :
  List.filter (due now) (map (claimed_if_due now) st) = [].
Proof.
  induction st as [|d rest IH]; [reflexivity|].
  simpl. rewrite claimed_not_due. exact IH.
Qed.

(** X18: on a collection whose ids are distinct and whose documents have
    the keys [from_dict] indexes, with the broker reachable, one tick sets
    every due record (status [retry_scheduled], retry time not after the
    clock read) to [retrying] and leaves every other record and field as
    it was, puts one message per due record on the work queue, and does
    not raise; after it no record is due at that clock reading. *)
Theorem tick_claims_every_due_record env s :
  NoDup (map idof (store s)) ->
  Forall complete (store s) ->
  broker_up env = true ->
  let s' := fst (process_scheduled_retries env s) in
  snd (process_scheduled_retries env s) = Ok tt /\
  store s' = map (claimed_if_due (utcnow env)) (store s) /\
  length (queue s')
    = length (queue s) + length (List.filter (due (utcnow env)) (store s)) /\
  List.filter (due (utcnow env)) (store s') = [] /\
  dlq s' = dlq s /\ outbox s' = outbox s.
Proof.
  intros Hn Hc Hup. cbv zeta. unfold process_scheduled_retries.
  set (now := utcnow env). set (ds := List.filter (due now) (store s)).
  assert (Forall complete ds) as Hcd.
  { apply Forall_forall. intros d Hd.
    apply list_elem_of_In, filter_In in Hd as [Hd _].
    rewrite Forall_forall in Hc. apply Hc, list_elem_of_In, Hd. }
  assert (Forall (fun d => idof d ∈ map idof (store s)) ds) as Hid.
  { apply Forall_forall. intros d Hd.
    apply list_elem_of_In, filter_In in Hd as [Hd _].
    apply list_elem_of_In, in_map, Hd. }
  destruct (for_each_claim_up env ds s Hcd Hid Hup) as (msgs & Hl & ->).
  cbn [fst snd store queue dlq outbox].
  assert (fold_left (fun st d => set_first (idof d) retrying_update st) ds
            (store s) = map (claimed_if_due now) (store s)) as Hst.
  { rewrite (claims_fold _ _ Hn). apply List.map_ext_in. intros x Hx.
    unfold claimed_if_due. rewrite <- retrying_update_union.
    destruct (due now x) eqn:E.
    - rewrite bool_decide_eq_true_2; [reflexivity|].
      apply list_elem_of_In, in_map, filter_In. auto.
    - rewrite bool_decide_eq_false_2; [reflexivity|].
      intros Hin. apply list_elem_of_In, in_map_iff in Hin as (y & Hy & Hyd).
      apply filter_In in Hyd as [Hyin Hyd].
      assert (y = x) as ->.
      { apply (unique_by_id y x (store s)); auto; apply list_elem_of_In; auto. }
      congruence. }
  rewrite Hst. repeat split; try reflexivity.
  - rewrite length_app, Hl. reflexivity.
  - apply nothing_due_after_claims.
Qed.

Lemma tick_claims_every_due_record_witness :
  store (fst (process_scheduled_retries (world_ok 9) s_due))
  = map (claimed_if_due 9) (store s_due).
Proof.
  apply (tick_claims_every_due_record (world_ok 9) s_due).
  - apply NoDup_singleton.
  - repeat constructor; vm_compute; eauto.
  - reflexivity.
Defined.

(** ** A provider error *)



(** ** Beyond 64 bits *)

Lemma unstorable_count (n : Notification) j :
  (retry_count n = VInt j \/ max_retries n = VInt j) -> (2 ^ 63 <= j)%N ->
  encodable (to_dict n) = false.
Proof.
  intros Hj Hle. destruct (encodable (to_dict n)) eqn:E; [|reflexivity].
  exfalso. apply encodable_to_dict in E. unfold attributes in E.
  rewrite !Forall_cons in E.
  destruct E as (_ & _ & _ & _ & _ & _ & _ & _ & _ & Hrc & Hmr & _).
  destruct Hj as [Hj|Hj]; [rewrite Hj in Hrc|rewrite Hj in Hmr];
    simpl in *; apply N.ltb_lt in Hrc || apply N.ltb_lt in Hmr; lia.
Qed.

(** X20: a failed attempt whose new retry count, or whose [max_retries],
    is beyond what BSON holds writes nothing, publishes nothing, also when
    the retries are exhausted and the broker is reachable, and the message
    is rejected: the
    [OverflowError] of [update_one] is caught like any other. *)
Theorem attempt_beyond_int64 env b n s s1 n1 k m :
  deserialize b = Ok n ->
  send_notification env n s = (s1, Ok (n1, false)) ->
  retry_count n = VInt k -> max_retries n = VInt m ->
  (2 ^ 63 <= k + 1)%N \/ (2 ^ 63 <= m)%N ->
  process_notification env b s = (s1, Ok false) /\
  store s1 = store s /\ queue s1 = queue s /\ dlq s1 = dlq s.
Proof.
  intros Hd Hs Hk Hm Hbig.
  destruct (send_notification_failed _ _ _ _ _ Hs)
    as (Hst & Hq & Hdl & e & ->).
  split; [|auto].
  rewrite (process_notification_failed_cases _ _ _ _ _ _ _ _ Hd Hs Hk Hm).
  cbv zeta.
  assert (forall n2, retry_count n2 = VInt (k + 1) -> max_retries n2 = VInt m ->
            encodable (to_dict n2) = false) as Hno.
  { intros n2 H1 H2. destruct Hbig as [H|H];
      [apply (unstorable_count n2 (k + 1))|apply (unstorable_count n2 m)];
      auto. }
  rewrite !Hno by (destruct n; simpl in *; auto).
  destruct (m <=? k + 1)%N; reflexivity.
Qed.

Lemma attempt_beyond_int64_witness :
  process_notification (world_ok 7) (JsonDoc (to_dict note_at_int64))
    (mkState [to_dict note_at_int64] [] [] [])
  = (mkState [to_dict note_at_int64] [] [] [], Ok false) /\
  store (mkState [to_dict note_at_int64] [] [] []) = [to_dict note_at_int64] /\
  queue (mkState [to_dict note_at_int64] [] [] []) = [] /\
  dlq (mkState [to_dict note_at_int64] [] [] []) = [].
Proof.
  apply (attempt_beyond_int64 (world_ok 7) (JsonDoc (to_dict note_at_int64))
           note_at_int64 (mkState [to_dict note_at_int64] [] [] [])
           (mkState [to_dict note_at_int64] [] [] [])
           (set_last_error (VStr "Invalid email")
              (set_status (VStr "failed") note_at_int64))
           (2 ^ 63 - 1) 5); try reflexivity.
  left. vm_compute. discriminate.
Defined.
